(** * Reminder engine of the calendar chatbot

    A shallow embedding of [check_and_remind] (src/calender_chatbot.py,
    lines 105-207) and of the state table [SENT_REMINDERS] it mutates, of
    the fetch (lines 80-103) and of the notifier (lines 107-121), followed
    by the properties of the reminder state machine.

    Conventions.
    - An aware [datetime] is the instant it denotes, an integer number of
      microseconds since the epoch; a [timedelta] is an integer number of
      microseconds.  Both are [Z].
    - [SENT_REMINDERS] is a dictionary of dictionaries: a [gmap] from event
      identifiers to a [gmap] from milestone keys to booleans.  The inner
      keys are the Python values ['started'] and ['all_day_today'] (strings)
      and [15], [5], [1] (integers), hence the key type [string + Z].
    - The function runs in a small monad that threads the table, collects
      the observable effects (notifications and log records) and propagates
      exceptions.  Whatever was written to the table or emitted before an
      exception stays, as for a Python global.
    - A library call that can raise on the path the engine takes returns an
      [option]; [None] stands for the exception, which the engine catches
      or lets through as the source does. *)

From Stdlib Require Import ZArith Lia Ascii String.
From Stdlib Require Import Sorted.
From stdpp Require Import gmap strings list pretty.

Open Scope string_scope.
Open Scope Z_scope.
Open Scope list_scope.

(** ** Data model *)

Abbreviation key := (string + Z)%type.
Abbreviation Reminders := (gmap string (gmap (string + Z) bool)).

Definition k_started : key := inl "started".
Definition k_all_day_today : key := inl "all_day_today".
Definition k_threshold (threshold_minutes : Z) : key := inr threshold_minutes.

(** [event['start']]: the dictionary holds ['dateTime'] (timed event) or
    else ['date'] (all-day event). *)
Inductive start_data : Type :=
| StartDateTime (dateTime : string)
| StartDate (date : string).

Module Event.
Record t : Type := mk {
  id : string;
  summary : option string;     (* absent key: None *)
  htmlLink : option string;    (* absent key: None *)
  start : start_data
}.
End Event.

Record date : Type := Date { year : Z; month : Z; day : Z }.

#[global] Instance date_eq_dec : EqDecision date.
Proof. solve_decision. Defined.

(** ** The datetime library

    [datetime], [pytz] and the C locale are not part of the repository.
    The calls the engine makes are collected in an interface; the general
    properties below hold for all implementations of it.
    - [fromisoformat s]: [datetime.fromisoformat(s)], line 147, the parsed
      datetime as the instant it denotes; [None] stands for [ValueError].
    - [strptime_datetime s]: [datetime.strptime(s, "%Y-%m-%dT%H:%M:%S%z")],
      line 151; [None] stands for [ValueError].
    - [astimezone x]: [x.astimezone(LOCAL_TIMEZONE)], line 156, which is
      not inside the [try]; [None] stands for the [OverflowError] of a
      datetime that has no counterpart in the local zone within the years
      1 to 9999.
    - [strptime_date s]: [datetime.strptime(s, "%Y-%m-%d").date()], line
      201, not inside a [try]; [None] stands for [ValueError].
    - [local_date t]: [t.date()] for [t] in [LOCAL_TIMEZONE].
    - [strftime_YmdHMS], [strftime_IMp]: [t.strftime] with the formats
      ['%Y-%m-%d %H:%M:%S'] and ['%I:%M %p'].
    - [tzname t]: [LOCAL_TIMEZONE.tzname(t)], line 191, where
      [LOCAL_TIMEZONE] is the zone object of [pytz.timezone] and [t] an
      aware datetime; [None] stands for [ValueError].  The zone classes of
      pytz answer an aware datetime with [ValueError] ('Not naive
      datetime') unless its [tzinfo] is the zone object itself, which it is
      not for a datetime that [astimezone] produced past the first
      transition of the zone. *)
Class DatetimeLib : Type := {
  fromisoformat : string -> option Z;
  strptime_datetime : string -> option Z;
  astimezone : Z -> option Z;
  strptime_date : string -> option date;
  local_date : Z -> date;
  strftime_YmdHMS : Z -> string;
  strftime_IMp : Z -> string;
  tzname : Z -> option string
}.

(** [datetime.timedelta(minutes=m)] and [datetime.timedelta(seconds=s)]. *)
Definition timedelta_minutes (m : Z) : Z := m * 60000000.
Definition timedelta_seconds (s : Z) : Z := s * 1000000.

(** [s.replace('Z', '+00:00')]. *)
Fixpoint replace_Z (s : string) : string :=
  match s with
  | EmptyString => EmptyString
  | String c s' =>
      if Ascii.eqb c "Z"%char then "+00:00" +:+ replace_Z s'
      else String c (replace_Z s')
  end.

(** [sorted(l, reverse=True)] on integers: an insertion sort into
    descending order. *)
Fixpoint insert_desc (x : Z) (l : list Z) : list Z :=
  match l with
  | [] => [x]
  | y :: l' => if y <? x then x :: l else y :: insert_desc x l'
  end.

Definition sorted_reverse (l : list Z) : list Z := foldr insert_desc [] l.

(** ** Effects *)

Inductive exn : Type :=
| ValueError
| OverflowError
| KeyError (k : string).

Inductive level : Type := INFO | WARNING | ERROR.

(** One record per call of [send_notification] and per call of [logger].
    [Notify] carries, besides the title and the message passed to
    [send_notification], two labels that name the call site: the identifier
    of the event being processed and the table key that the branch sets. *)
Inductive effect : Type :=
| Notify (event_id : string) (k : key) (title message : string)
| Log (lv : level) (msg : string).

Inductive outcome (A : Type) : Type :=
| Returned (a : A)
| Raised (e : exn).
Arguments Returned {A} a.
Arguments Raised {A} e.

Definition M (A : Type) : Type := Reminders -> outcome A * Reminders * list effect.

Definition ret {A} (a : A) : M A := fun T => (Returned a, T, []).

Definition bind {A B} (m : M A) (f : A -> M B) : M B :=
  fun T =>
    match m T with
    | (Returned a, T1, tr1) =>
        match f a T1 with
        | (o, T2, tr2) => (o, T2, tr1 ++ tr2)
        end
    | (Raised e, T1, tr1) => (Raised e, T1, tr1)
    end.

Definition raise {A} (e : exn) : M A := fun T => (Raised e, T, []).
Definition emit (x : effect) : M unit := fun T => (Returned tt, T, [x]).

Declare Scope m_scope.
Delimit Scope m_scope with m.
Notation "x <- c1 ;; c2" := (bind c1 (fun x => c2))
  (at level 100, c1 at next level, right associativity) : m_scope.
Notation "c1 ;; c2" := (bind c1 (fun _ => c2))
  (at level 100, right associativity) : m_scope.
Open Scope m_scope.

Definition state_of {A} (r : outcome A * Reminders * list effect) : Reminders := r.1.2.
Definition trace_of {A} (r : outcome A * Reminders * list effect) : list effect := r.2.
Definition outcome_of {A} (r : outcome A * Reminders * list effect) : outcome A := r.1.1.

(** [for x in l: body(x)]; a [continue] in the body is an early return of
    the body. *)
Fixpoint for_each {A} (l : list A) (body : A -> M unit) : M unit :=
  match l with
  | [] => ret tt
  | x :: l' => body x ;; for_each l' body
  end.

(** A loop whose body may [break]. *)
Inductive flow : Type := Next | Break.

Fixpoint for_break {A} (l : list A) (body : A -> M flow) : M unit :=
  match l with
  | [] => ret tt
  | x :: l' =>
      f <- body x ;;
      match f with
      | Break => ret tt
      | Next => for_break l' body
      end
  end.

(** *** Operations on [SENT_REMINDERS] *)

(** [event_id in SENT_REMINDERS] *)
Definition contains (event_id : string) : M bool :=
  fun T => (Returned (bool_decide (is_Some (T !! event_id))), T, []).

(** [SENT_REMINDERS[event_id] = d] *)
Definition set_entry (event_id : string) (d : gmap (string + Z) bool) : M unit :=
  fun T => (Returned tt, <[event_id := d]> T, []).

(** [SENT_REMINDERS[event_id].get(k, False)] *)
Definition get_flag (event_id : string) (k : key) : M bool :=
  fun T =>
    match T !! event_id with
    | Some d => (Returned (default false (d !! k)), T, [])
    | None => (Raised (KeyError event_id), T, [])
    end.

(** [SENT_REMINDERS[event_id][k] = True] *)
Definition set_flag (event_id : string) (k : key) : M unit :=
  fun T =>
    match T !! event_id with
    | Some d => (Returned tt, <[event_id := <[k := true]> d]> T, [])
    | None => (Raised (KeyError event_id), T, [])
    end.

Definition logger (lv : level) (msg : string) : M unit := emit (Log lv msg).

(** [send_notification(title, message)], lines 107-121.  The delivery
    backend is external; every exception of it is caught inside the
    function, which therefore always returns. *)
Definition send_notification (event_id : string) (k : key) (title message : string) : M unit :=
  emit (Notify event_id k title message).

(** ** The engine *)

Definition reminder_thresholds : list Z := [15; 5; 1].

Definition newline : string := String (Ascii.ascii_of_nat 10) EmptyString.

(** Lines 183-187.  [time_to_event.total_seconds() // 60] is a floor
    division of floats; for the durations at which a reminder is sent
    (below sixteen minutes) it is the floor of the exact quotient. *)
Definition minutes_left (time_to_event : Z) : Z := time_to_event / (60 * 1000000).

Definition minutes_text (time_to_event : Z) : string :=
  if minutes_left time_to_event =? 0 then "less than a minute"
  else pretty (minutes_left time_to_event) +:+ " minutes".

Section Engine.
Context {lib : DatetimeLib}.

(** Lines 146-154: the two parse attempts.  [None] is the [continue] of
    line 154; the value is the datetime that line 156 converts. *)
Definition parse_start_time (event_summary dateTime : string) : M (option Z) :=
  match fromisoformat (replace_Z dateTime) with
  | Some event_start_time_utc => ret (Some event_start_time_utc)
  | None =>
      logger WARNING ("Could not parse '" +:+ dateTime +:+
                      "' with fromisoformat for event " +:+ event_summary +:+
                      ". Trying strptime.") ;;
      match strptime_datetime dateTime with
      | Some event_start_time_utc => ret (Some event_start_time_utc)
      | None =>
          logger ERROR ("Failed to parse event start time for " +:+
                        event_summary +:+ ": " +:+ dateTime) ;;
          ret None
      end
  end.

(** Lines 166-173, entered when the start lies in the started window. *)
Definition started_branch (event_id event_summary event_html_link : string) : M unit :=
  sent <- get_flag event_id k_started ;;
  if negb sent then
    send_notification event_id k_started
      ("Event Started: " +:+ event_summary)
      ("It's happening now! Link: " +:+ event_html_link) ;;
    set_flag event_id k_started ;;
    logger INFO ("Notification sent for '" +:+ event_summary +:+ "' as it started.")
  else ret tt.

(** Line 178, first conjunct: the tolerance window of a threshold. *)
Definition in_window (time_to_event threshold_minutes : Z) : bool :=
  (timedelta_seconds (-10) <=? time_to_event - timedelta_minutes threshold_minutes)
  && (time_to_event - timedelta_minutes threshold_minutes <? timedelta_minutes 1).

(** Lines 189-193: the message of an upcoming-event reminder, given the
    name that [tzname] returned. *)
Definition upcoming_message (event_html_link : string)
    (event_start_time_local time_to_event : Z) (zone_name : string) : string :=
  "Starts in approx. " +:+ minutes_text time_to_event +:+ " at " +:+
  strftime_IMp event_start_time_local +:+ " (" +:+
  zone_name +:+ ")." +:+ newline +:+
  "Link: " +:+ event_html_link.

(** Lines 175-197: the body of the loop over the thresholds.  The message
    is built (lines 189-193) before [send_notification] is called (line
    194) and before the flag is set (line 195): when [tzname] raises,
    nothing is sent, no flag is set, and the exception leaves the loop, the
    loop over the events and [check_and_remind]. *)
Definition threshold_body (event_id event_summary event_html_link : string)
    (event_start_time_local time_to_event : Z) (threshold_minutes : Z) : M flow :=
  if in_window time_to_event threshold_minutes
     && (time_to_event >? timedelta_seconds 0) then
    sent <- get_flag event_id (k_threshold threshold_minutes) ;;
    if negb sent then
      match tzname event_start_time_local with
      | None => raise ValueError
      | Some zone_name =>
          send_notification event_id (k_threshold threshold_minutes)
            ("Upcoming Event: " +:+ event_summary)
            (upcoming_message event_html_link event_start_time_local time_to_event
               zone_name) ;;
          set_flag event_id (k_threshold threshold_minutes) ;;
          logger INFO ("Reminder sent for '" +:+ event_summary +:+ "' for " +:+
                       pretty threshold_minutes +:+ " min threshold.") ;;
          ret Break
      end
    else ret Next
  else ret Next.

(** Lines 158-197: a timed event whose start was parsed and converted. *)
Definition timed_branch (now_local : Z) (event_id event_summary event_html_link : string)
    (event_start_time_local : Z) : M unit :=
  let time_to_event := event_start_time_local - now_local in
  if (timedelta_minutes (-5) <? time_to_event)
     && (time_to_event <=? timedelta_seconds 0) then
    started_branch event_id event_summary event_html_link
  else
    for_break (sorted_reverse reminder_thresholds)
      (threshold_body event_id event_summary event_html_link
         event_start_time_local time_to_event).

(** Lines 199-207: an all-day event.  The [strptime] of line 201 is not
    inside a [try]. *)
Definition all_day_branch (now_local : Z) (event_id event_summary event_html_link : string)
    (event_date_str : string) : M unit :=
  match strptime_date event_date_str with
  | None => raise ValueError
  | Some event_date =>
      if bool_decide (event_date = local_date now_local) then
        sent <- get_flag event_id k_all_day_today ;;
        if negb sent then
          send_notification event_id k_all_day_today
            ("All-Day Event Today: " +:+ event_summary)
            ("This all-day event is happening today! Details: " +:+ event_html_link) ;;
          set_flag event_id k_all_day_today ;;
          logger INFO ("All-day event notification sent for '" +:+ event_summary +:+ "'.")
        else ret tt
      else ret tt
  end.

(** Lines 137-207: the body of the loop over the events. *)
Definition event_body (now_local : Z) (event : Event.t) : M unit :=
  let event_id := Event.id event in
  let event_summary := default "No Title" (Event.summary event) in
  let event_html_link := default "#" (Event.htmlLink event) in
  known <- contains event_id ;;
  (if negb known then set_entry event_id ∅ else ret tt) ;;
  match Event.start event with
  | StartDateTime dateTime =>
      parsed <- parse_start_time event_summary dateTime ;;
      match parsed with
      | None => ret tt
      | Some event_start_time_utc =>
          match astimezone event_start_time_utc with
          | None => raise OverflowError
          | Some event_start_time_local =>
              timed_branch now_local event_id event_summary event_html_link
                event_start_time_local
          end
      end
  | StartDate event_date_str =>
      all_day_branch now_local event_id event_summary event_html_link event_date_str
  end.

(** Lines 123-207.  [now_local] is the value of
    [datetime.datetime.now(LOCAL_TIMEZONE)] and [events] the list that
    [get_upcoming_events] returned for the window around it. *)
Definition check_and_remind (now_local : Z) (events : list Event.t) : M unit :=
  logger INFO ("Running reminder check at " +:+ strftime_YmdHMS now_local) ;;
  match events with
  | [] => logger INFO "No upcoming events found in the current check window."
  | _ => for_each events (event_body now_local)
  end.

(** The scheduler runs [check_and_remind] again and again on the same
    table; an exception of one run is caught by the scheduler and does
    not stop the next one.  [polls] gives, per run, the clock reading and
    the fetched batch. *)
Fixpoint run_polls (polls : list (Z * list Event.t)) (T : Reminders)
    : Reminders * list effect :=
  match polls with
  | [] => (T, [])
  | (now_local, events) :: polls' =>
      let r := check_and_remind now_local events T in
      let r' := run_polls polls' (state_of r) in
      (r'.1, trace_of r ++ r'.2)
  end.

End Engine.

(** ** A reference implementation of the library interface

    An executable stand-in used to evaluate the engine on concrete inputs;
    no general property depends on it.  It reads the canonical RFC 3339
    form in which the calendar service reports timed starts
    ([YYYY-MM-DDTHH:MM:SS+HH:MM], for [strptime] also [+HHMM] and a literal
    [Z]), and [YYYY-MM-DD] for dates; other forms that the parsers of
    Python accept (fractional seconds, datetimes without offset, one-digit
    months and days) are outside of it and are rejected here.  The zone is
    Asia/Kolkata at its present offset, UTC+05:30: [astimezone] keeps the
    instant and overflows outside the years 1 to 9999, and [tzname], asked
    as line 191 asks it, raises. *)
Module Ref.

Definition digit (c : ascii) : option Z :=
  let n := Z.of_nat (nat_of_ascii c) in
  if (48 <=? n) && (n <=? 57) then Some (n - 48) else None.

Fixpoint digits (n : nat) (acc : Z) (s : string) : option (Z * string) :=
  match n, s with
  | O, _ => Some (acc, s)
  | S n', String c s' => d ← digit c; digits n' (acc * 10 + d) s'
  | S _, EmptyString => None
  end.

Definition expect (c : ascii) (s : string) : option string :=
  match s with
  | String c' s' => if Ascii.eqb c c' then Some s' else None
  | EmptyString => None
  end.

Definition is_leap (y : Z) : bool :=
  (y mod 4 =? 0) && (negb (y mod 100 =? 0) || (y mod 400 =? 0)).

Definition days_in_month (y m : Z) : Z :=
  if m =? 2 then (if is_leap y then 29 else 28)
  else if (m =? 4) || (m =? 6) || (m =? 9) || (m =? 11) then 30 else 31.

(** Days between 1970-01-01 and the given civil date, and back. *)
Definition days_from_civil (y m d : Z) : Z :=
  let y' := if m <=? 2 then y - 1 else y in
  let era := y' / 400 in
  let yoe := y' - era * 400 in
  let doy := (153 * (if 2 <? m then m - 3 else m + 9) + 2) / 5 + d - 1 in
  let doe := yoe * 365 + yoe / 4 - yoe / 100 + doy in
  era * 146097 + doe - 719468.

Definition civil_from_days (z : Z) : date :=
  let z' := z + 719468 in
  let era := z' / 146097 in
  let doe := z' - era * 146097 in
  let yoe := (doe - doe / 1460 + doe / 36524 - doe / 146096) / 365 in
  let doy := doe - (365 * yoe + yoe / 4 - yoe / 100) in
  let mp := (5 * doy + 2) / 153 in
  let d := doy - (153 * mp + 2) / 5 + 1 in
  let m := if mp <? 10 then mp + 3 else mp - 9 in
  Date (yoe + era * 400 + (if m <=? 2 then 1 else 0)) m d.

Definition read_date (s : string) : option (date * string) :=
  '(y, s) ← digits 4 0 s;
  s ← expect "-" s;
  '(m, s) ← digits 2 0 s;
  s ← expect "-" s;
  '(d, s) ← digits 2 0 s;
  if (1 <=? y) && (1 <=? m) && (m <=? 12) && (1 <=? d) && (d <=? days_in_month y m)
  then Some (Date y m d, s) else None.

(** Seconds since midnight. *)
Definition read_time (s : string) : option (Z * string) :=
  '(h, s) ← digits 2 0 s;
  s ← expect ":" s;
  '(mi, s) ← digits 2 0 s;
  s ← expect ":" s;
  '(sec, s) ← digits 2 0 s;
  if (h <? 24) && (mi <? 60) && (sec <? 60)
  then Some (h * 3600 + mi * 60 + sec, s) else None.

(** The offset from UTC in seconds. *)
Definition read_offset (colon_optional : bool) (s : string) : option (Z * string) :=
  '(sign, s) ← match s with
               | String "+" s' => Some (1, s')
               | String "-" s' => Some (-1, s')
               | _ => None
               end;
  '(h, s) ← digits 2 0 s;
  s ← match expect ":" s with
      | Some s' => Some s'
      | None => if colon_optional then Some s else None
      end;
  '(mi, s) ← digits 2 0 s;
  if (h <? 24) && (mi <? 60) then Some (sign * (h * 3600 + mi * 60), s) else None.

Definition instant (d : date) (time offset : Z) : Z :=
  ((days_from_civil (year d) (month d) (day d)) * 86400 + time - offset) * 1000000.

Definition ref_fromisoformat (s : string) : option Z :=
  '(d, s) ← read_date s;
  s ← expect "T" s;
  '(t, s) ← read_time s;
  '(off, s) ← read_offset false s;
  match s with EmptyString => Some (instant d t off) | _ => None end.

Definition ref_strptime_datetime (s : string) : option Z :=
  '(d, s) ← read_date s;
  s ← expect "T" s;
  '(t, s) ← read_time s;
  '(off, s) ← match s with
              | String "Z" s' => Some (0, s')
              | _ => read_offset true s
              end;
  match s with EmptyString => Some (instant d t off) | _ => None end.

Definition ref_strptime_date (s : string) : option date :=
  '(d, s) ← read_date s;
  match s with EmptyString => Some d | _ => None end.

Definition utcoffset : Z := 19800.

(** The instants whose UTC and local datetimes both lie in the years 1 to
    9999. *)
Definition ref_astimezone (x : Z) : option Z :=
  if (days_from_civil 1 1 1 * 86400000000 <=? x)
     && (x + utcoffset * 1000000 <? days_from_civil 10000 1 1 * 86400000000)
  then Some x else None.

Definition local_seconds (t : Z) : Z := t / 1000000 + utcoffset.

Definition ref_local_date (t : Z) : date := civil_from_days (local_seconds t / 86400).

Definition pad2 (n : Z) : string := if n <? 10 then "0" +:+ pretty n else pretty n.

Definition pad4 (n : Z) : string :=
  (if n <? 1000 then "0" else "") +:+ (if n <? 100 then "0" else "") +:+ pad2 n.

Definition ref_strftime_YmdHMS (t : Z) : string :=
  let d := ref_local_date t in
  let sod := local_seconds t mod 86400 in
  pad4 (year d) +:+ "-" +:+ pad2 (month d) +:+ "-" +:+ pad2 (day d) +:+ " " +:+
  pad2 (sod / 3600) +:+ ":" +:+ pad2 (sod mod 3600 / 60) +:+ ":" +:+ pad2 (sod mod 60).

Definition ref_strftime_IMp (t : Z) : string :=
  let sod := local_seconds t mod 86400 in
  let h := sod / 3600 in
  pad2 (if h mod 12 =? 0 then 12 else h mod 12) +:+ ":" +:+
  pad2 (sod mod 3600 / 60) +:+ " " +:+ (if h <? 12 then "AM" else "PM").

Definition lib : DatetimeLib := {|
  fromisoformat := ref_fromisoformat;
  strptime_datetime := ref_strptime_datetime;
  astimezone := ref_astimezone;
  strptime_date := ref_strptime_date;
  local_date := ref_local_date;
  strftime_YmdHMS := ref_strftime_YmdHMS;
  strftime_IMp := ref_strftime_IMp;
  tzname := fun _ => None
|}.

End Ref.

(** * Vocabulary of the properties

    ** Observations on tables and traces *)

(** [fired T event_id k]: the flag [k] of [event_id] is set in the table. *)
Definition fired (T : Reminders) (event_id : string) (k : key) : bool :=
  match T !! event_id with
  | Some d => default false (d !! k)
  | None => false
  end.

Definition label_of (e : effect) : option (string * key) :=
  match e with
  | Notify event_id k _ _ => Some (event_id, k)
  | Log _ _ => None
  end.

(** The notifications of a trace, by event identifier and milestone. *)
Definition notifications (tr : list effect) : list (string * key) := omap label_of tr.

(** How many notifications a trace holds for one identifier and milestone. *)
Definition sent_count (event_id : string) (k : key) (tr : list effect) : nat :=
  length (filter (λ p, p = (event_id, k)) (notifications tr)).

Section Decision.
Context {lib : DatetimeLib}.

(** The datetime that lines 146-154 arrive at, if any: [None] when both
    formats reject the string. *)
Definition parsed_start (dateTime : string) : option Z :=
  match fromisoformat (replace_Z dateTime) with
  | Some t => Some t
  | None => strptime_datetime dateTime
  end.

(** The local start that line 156 arrives at: the string is accepted by
    one of the two formats and the conversion to the local zone returns. *)
Definition local_start (dateTime : string) : option Z :=
  match parsed_start dateTime with
  | Some event_start_time_utc => astimezone event_start_time_utc
  | None => None
  end.

(** The condition of lines 178-180 for one threshold, read on the inner
    dictionary [d] of the event. *)
Definition threshold_due (time_to_event : Z) (d : gmap (string + Z) bool)
    (threshold_minutes : Z) : bool :=
  in_window time_to_event threshold_minutes
  && (time_to_event >? timedelta_seconds 0)
  && negb (default false (d !! k_threshold threshold_minutes)).

(** What the body of the event loop decides for one event. *)
Inductive verdict : Type :=
| Fire (k : key)
| Skip
| Fail (e : exn).

Definition timed_verdict (event_start_time_local time_to_event : Z)
    (d : gmap (string + Z) bool) : verdict :=
  if (timedelta_minutes (-5) <? time_to_event)
     && (time_to_event <=? timedelta_seconds 0) then
    if default false (d !! k_started) then Skip else Fire k_started
  else
    match List.find (threshold_due time_to_event d) (sorted_reverse reminder_thresholds) with
    | Some m =>
        match tzname event_start_time_local with
        | Some _ => Fire (k_threshold m)
        | None => Fail ValueError
        end
    | None => Skip
    end.

Definition verdict_of (now_local : Z) (event : Event.t)
    (d : gmap (string + Z) bool) : verdict :=
  match Event.start event with
  | StartDateTime dateTime =>
      match parsed_start dateTime with
      | Some event_start_time_utc =>
          match astimezone event_start_time_utc with
          | Some t => timed_verdict t (t - now_local) d
          | None => Fail OverflowError
          end
      | None => Skip
      end
  | StartDate event_date_str =>
      match strptime_date event_date_str with
      | None => Fail ValueError
      | Some event_date =>
          if bool_decide (event_date = local_date now_local)
             && negb (default false (d !! k_all_day_today))
          then Fire k_all_day_today else Skip
      end
  end.

(** The log records of the two parse attempts. *)
Definition parse_logs (event_summary dateTime : string) : list effect :=
  match fromisoformat (replace_Z dateTime) with
  | Some _ => []
  | None =>
      Log WARNING ("Could not parse '" +:+ dateTime +:+
                   "' with fromisoformat for event " +:+ event_summary +:+
                   ". Trying strptime.") ::
      match strptime_datetime dateTime with
      | Some _ => []
      | None => [Log ERROR ("Failed to parse event start time for " +:+
                            event_summary +:+ ": " +:+ dateTime)]
      end
  end.

(** Every check of a sequence returns: none is cut short by an
    exception. *)
Fixpoint checks_return (polls : list (Z * list Event.t)) (T : Reminders) : Prop :=
  match polls with
  | [] => True
  | (now_local, events) :: polls' =>
      outcome_of (check_and_remind now_local events T) = Returned tt
      ∧ checks_return polls' (state_of (check_and_remind now_local events T))
  end.

End Decision.

(** ** Sample inputs

    The instants are those the reference library reads from the strings
    named in the comments. *)
Module Sample.

(** 2024-03-01T10:00:00+05:30 *)
Definition at_10_00 : Z := 1709267400000000.
(** 2024-03-01T10:15:00+05:30 *)
Definition at_10_15 : Z := 1709268300000000.
(** 9999-12-31T23:30:00+00:00, in the local zone the year 10000. *)
Definition at_range_end : Z := 253402299000000000.

Definition minute : Z := 60000000.

Definition standup : Event.t :=
  Event.mk "e1" (Some "Standup") None (StartDateTime "2024-03-01T10:15:00+05:30").

Definition holiday : Event.t :=
  Event.mk "e2" (Some "Holiday") None (StartDate "2024-03-01").

Definition broken_timed : Event.t :=
  Event.mk "e3" None None (StartDateTime "not-a-date").

Definition broken_all_day : Event.t :=
  Event.mk "e4" None None (StartDate "not-a-date").

(** The stand-up moved to 10:31. *)
Definition standup_moved : Event.t :=
  Event.mk "e1" (Some "Standup") None (StartDateTime "2024-03-01T10:31:00+05:30").

Definition far_future : Event.t :=
  Event.mk "e5" None None (StartDateTime "9999-12-31T23:30:00+00:00").

End Sample.

(** * The rest of the reminder job

    ** Further vocabulary for the table and for sequences of checks *)

(** The keys that lines 171, 195 and 206 store. *)
Definition milestone_keys : list key :=
  (k_threshold <$> sorted_reverse reminder_thresholds) ++ [k_started; k_all_day_today].

(** Every flag in the table is [True] and sits under a milestone key. *)
Definition flags_well_formed (T : Reminders) : Prop :=
  ∀ (event_id : string) (d : gmap (string + Z) bool) (k : key) (b : bool),
    T !! event_id = Some d → d !! k = Some b → b = true ∧ k ∈ milestone_keys.

(** Clock readings that do not go back and are at most [w] apart. *)
Fixpoint gaps_at_most (w : Z) (nows : list Z) : Prop :=
  match nows with
  | a :: (b :: _) as rest => a ≤ b ≤ a + w ∧ gaps_at_most w rest
  | _ => True
  end.

(** The order in which the milestones of a timed event come up as the
    clock advances: 15, 5, 1, started. *)
Definition milestone_rank (k : key) : nat :=
  match k with
  | inr m => if m =? 15 then 0 else if m =? 5 then 1 else 2
  | inl _ => 3
  end.

(** The clock reading lies in the window of the milestone [k] of a timed
    event that starts at [t]. *)
Definition due_at (t : Z) (k : key) (now_local : Z) : Prop :=
  match k with
  | inr m => m ∈ reminder_thresholds ∧ in_window (t - now_local) m = true
  | inl _ =>
      k = k_started
      ∧ timedelta_minutes (-5) < t - now_local ≤ timedelta_seconds 0
  end.

(** The keys notified for one identifier, in the order of the trace. *)
Definition keys_notified (event_id : string) (tr : list effect) : list key :=
  (filter (λ p : string * key, p.1 = event_id) (notifications tr)).*2.

(** ** The notifier, lines 107-121 *)

(** What the notifier does to the outside: a call of
    [notification.notify] or a log record. *)
Inductive notifier_effect : Type :=
| DesktopNotify (title message app_name : string) (timeout : Z)
| NotifierLog (lv : level) (msg : string).

(** [notification] is [None] when plyer could not be imported (lines
    15-18).  Otherwise it tells what [notification.notify] does with a
    title and a message: it returns ([None]) or raises an [Exception] whose
    text is given. *)
Definition send_notification_impl
    (notification : option (string -> string -> option string))
    (title message : string) : outcome unit * list notifier_effect :=
  match notification with
  | Some notify =>
      match notify title message with
      | None =>
          (Returned tt,
           [DesktopNotify title message "Virtual Event Scheduler" 10;
            NotifierLog INFO ("Desktop Notification Sent: " +:+ title +:+ " - " +:+
                              message)])
      | Some e =>
          (Returned tt,
           [DesktopNotify title message "Virtual Event Scheduler" 10;
            NotifierLog ERROR ("Failed to send desktop notification: " +:+ e);
            NotifierLog INFO ("Console Reminder: " +:+ title +:+ " - " +:+ message)])
      end
  | None =>
      (Returned tt,
       [NotifierLog INFO ("Console Reminder: " +:+ title +:+ " - " +:+ message)])
  end.

(** The records of a level among the effects of the notifier. *)
Definition notifier_logs (lv : level) (tr : list notifier_effect) : list string :=
  omap (λ e, match e with
             | NotifierLog lv' msg =>
                 match lv, lv' with
                 | INFO, INFO | WARNING, WARNING | ERROR, ERROR => Some msg
                 | _, _ => None
                 end
             | DesktopNotify _ _ _ _ => None
             end) tr.

(** The calls of the desktop backend among the effects of the notifier. *)
Definition desktop_attempts (tr : list notifier_effect) : nat :=
  length (omap (λ e, match e with
                     | DesktopNotify _ _ _ _ => Some tt
                     | NotifierLog _ _ => None
                     end) tr).

(** ** The fetch, lines 80-103, and the job with its fetch, lines 123-134 *)

(** [datetime.timedelta(days=d)]. *)
Definition timedelta_days (d : Z) : Z := d * 86400000000.

(** The keyword arguments of [service.events().list(...)]. *)
Record list_request : Type := ListRequest {
  calendarId : string;
  timeMin : string;
  timeMax : string;
  maxResults : Z;
  singleEvents : bool;
  orderBy : string
}.

(** What [.execute()] does with the request: it returns the response
    dictionary, whose ['items'] key may be absent, or raises [HttpError]
    with the given text. *)
Inductive list_response : Type :=
| ListResult (items : option (list Event.t))
| ListHttpError (error : string).

(** The calls of the fetch on the datetime library:
    [t.astimezone(pytz.utc).isoformat()] and
    [t.strftime("%Y-%m-%d %H:%M")]. *)
Class FetchLib : Type := {
  isoformat_utc : Z -> string;
  strftime_YmdHM : Z -> string
}.

(** Lines 127-128. *)
Definition fetch_start_time (now_local : Z) : Z := now_local - timedelta_minutes 5.
Definition fetch_end_time (now_local : Z) : Z := now_local + timedelta_minutes 60.

Section Fetch.
Context {lib : DatetimeLib} {flib : FetchLib}.

(** Lines 80-103.  An omitted keyword argument is [None]; [clock] is the
    value [datetime.datetime.now(LOCAL_TIMEZONE)] has when it is asked for. *)
Definition get_upcoming_events (service : list_request -> list_response) (clock : Z)
    (max_results : option Z) (time_min_local time_max_local : option Z)
    : M (list Event.t) :=
  let max_results := default 10 max_results in
  let time_min_local := default clock time_min_local in
  let time_max_local := default (time_min_local + timedelta_days 7) time_max_local in
  let time_min_utc := isoformat_utc time_min_local in
  let time_max_utc := isoformat_utc time_max_local in
  logger INFO ("Getting upcoming events from " +:+ strftime_YmdHM time_min_local +:+
               " to " +:+ strftime_YmdHM time_max_local) ;;
  match service (ListRequest "primary" time_min_utc time_max_utc max_results
                   true "startTime") with
  | ListResult items => ret (default [] items)
  | ListHttpError error =>
      logger ERROR ("An error occurred while fetching events: " +:+ error) ;;
      ret []
  end.

(** Lines 123-207, the fetch included. *)
Definition check_and_remind_service (service : list_request -> list_response)
    (now_local : Z) : M unit :=
  logger INFO ("Running reminder check at " +:+ strftime_YmdHMS now_local) ;;
  events <- get_upcoming_events service now_local (Some 20)
              (Some (fetch_start_time now_local)) (Some (fetch_end_time now_local)) ;;
  match events with
  | [] => logger INFO "No upcoming events found in the current check window."
  | _ => for_each events (event_body now_local)
  end.

(** The request of the job at a clock reading. *)
Definition job_request (now_local : Z) : list_request :=
  ListRequest "primary" (isoformat_utc (fetch_start_time now_local))
    (isoformat_utc (fetch_end_time now_local)) 20 true "startTime".

(** The batch the job works on: the items of the response, none when the
    key is absent or the request failed. *)
Definition fetched (service : list_request -> list_response) (now_local : Z)
    : list Event.t :=
  match service (job_request now_local) with
  | ListResult items => default [] items
  | ListHttpError _ => []
  end.

End Fetch.

(** The fetch library of the reference implementation: UTC in ISO form
    with the offset [+00:00], and the local date and time to the minute. *)
Module RefFetch.

Definition ref_isoformat_utc (t : Z) : string :=
  let secs := t / 1000000 in
  let d := Ref.civil_from_days (secs / 86400) in
  let sod := secs mod 86400 in
  let micro := t mod 1000000 in
  Ref.pad4 (year d) +:+ "-" +:+ Ref.pad2 (month d) +:+ "-" +:+ Ref.pad2 (day d) +:+
  "T" +:+ Ref.pad2 (sod / 3600) +:+ ":" +:+ Ref.pad2 (sod mod 3600 / 60) +:+ ":" +:+
  Ref.pad2 (sod mod 60) +:+
  (if micro =? 0 then ""
   else "." +:+ Ref.pad2 (micro / 10000) +:+ Ref.pad2 (micro / 100 mod 100) +:+
        Ref.pad2 (micro mod 100)) +:+
  "+00:00".

Definition ref_strftime_YmdHM (t : Z) : string :=
  let d := Ref.ref_local_date t in
  let sod := Ref.local_seconds t mod 86400 in
  Ref.pad4 (year d) +:+ "-" +:+ Ref.pad2 (month d) +:+ "-" +:+ Ref.pad2 (day d) +:+
  " " +:+ Ref.pad2 (sod / 3600) +:+ ":" +:+ Ref.pad2 (sod mod 3600 / 60).

Definition flib : FetchLib := {|
  isoformat_utc := ref_isoformat_utc;
  strftime_YmdHM := ref_strftime_YmdHM
|}.

(** A calendar that holds the stand-up of the samples, and one that is
    out of reach. *)
Definition calendar (request : list_request) : list_response :=
  ListResult (Some [Sample.standup]).

Definition unreachable (request : list_request) : list_response :=
  ListHttpError "503".

End RefFetch.

(** A minute-by-minute run of checks over the last seventeen minutes
    before the stand-up of the samples and the five minutes after its
    start; every batch is the stand-up and the holiday. *)
Module Cadence.

Definition first_poll : Z := Sample.at_10_15 - 17 * Sample.minute - 7000000.

Definition polls : list (Z * list Event.t) :=
  (λ i : nat, (first_poll + Z.of_nat i * Sample.minute,
               [Sample.holiday; Sample.standup])) <$> seq 0 23.

(** Three checks a minute apart around the start, the first thirty
    seconds before it. *)
Definition around_start : list (Z * list Event.t) :=
  (λ i : nat, (Sample.at_10_15 - 30000000 + Z.of_nat i * Sample.minute,
               [Sample.holiday; Sample.standup])) <$> seq 0 3.

End Cadence.

(** * Properties *)

Lemma notifications_app tr1 tr2 :
  notifications (tr1 ++ tr2) = notifications tr1 ++ notifications tr2.
Proof. apply omap_app. Qed.

Section Runs.
Context {lib : DatetimeLib}.

(** ** The primitives on a table that holds the event's entry *)

Lemma get_flag_run event_id k T d :
  T !! event_id = Some d →
  get_flag event_id k T = (Returned (default false (d !! k)), T, []).
Proof. intros H. unfold get_flag. by rewrite H. Qed.

Lemma set_flag_run event_id k T d :
  T !! event_id = Some d →
  set_flag event_id k T = (Returned tt, <[event_id := <[k := true]> d]> T, []).
Proof. intros H. unfold set_flag. by rewrite H. Qed.

Lemma started_branch_run event_id event_summary event_html_link T d :
  T !! event_id = Some d →
  started_branch event_id event_summary event_html_link T =
    if default false (d !! k_started) then (Returned tt, T, [])
    else (Returned tt, <[event_id := <[k_started := true]> d]> T,
          [Notify event_id k_started ("Event Started: " +:+ event_summary)
             ("It's happening now! Link: " +:+ event_html_link);
           Log INFO ("Notification sent for '" +:+ event_summary +:+ "' as it started.")]).
Proof.
  intros H. unfold started_branch, bind.
  rewrite (get_flag_run _ _ _ _ H).
  destruct (default false (d !! k_started)); simpl; [done|].
  by rewrite (set_flag_run _ _ _ _ H).
Qed.

(** A threshold that is due sends its reminder when [tzname] returns, and
    raises with the table and the trace untouched when it does not. *)
Lemma threshold_body_run event_id event_summary event_html_link t tte m T d :
  T !! event_id = Some d →
  threshold_body event_id event_summary event_html_link t tte m T =
    if threshold_due tte d m then
      match tzname t with
      | Some zone_name =>
          (Returned Break, <[event_id := <[k_threshold m := true]> d]> T,
           [Notify event_id (k_threshold m) ("Upcoming Event: " +:+ event_summary)
              (upcoming_message event_html_link t tte zone_name);
            Log INFO ("Reminder sent for '" +:+ event_summary +:+ "' for " +:+
                      pretty m +:+ " min threshold.")])
      | None => (Raised ValueError, T, [])
      end
    else (Returned Next, T, []).
Proof.
  intros H. unfold threshold_body, threshold_due.
  destruct (in_window tte m && (tte >? timedelta_seconds 0)); simpl; [|done].
  unfold bind. rewrite (get_flag_run _ _ _ _ H).
  destruct (default false (d !! k_threshold m)); simpl; [done|].
  destruct (tzname t) as [zone_name|]; [|done].
  simpl. by rewrite (set_flag_run _ _ _ _ H).
Qed.

(** The loop stops at the first threshold of the list that is due; the
    thresholds after it are not looked at. *)
Lemma for_break_thresholds_run event_id event_summary event_html_link t tte ms T d :
  T !! event_id = Some d →
  for_break ms (threshold_body event_id event_summary event_html_link t tte) T =
    match List.find (threshold_due tte d) ms with
    | Some m =>
        match tzname t with
        | Some zone_name =>
            (Returned tt, <[event_id := <[k_threshold m := true]> d]> T,
             [Notify event_id (k_threshold m) ("Upcoming Event: " +:+ event_summary)
                (upcoming_message event_html_link t tte zone_name);
              Log INFO ("Reminder sent for '" +:+ event_summary +:+ "' for " +:+
                        pretty m +:+ " min threshold.")])
        | None => (Raised ValueError, T, [])
        end
    | None => (Returned tt, T, [])
    end.
Proof.
  intros H. induction ms as [|m ms IH]; [done|].
  cbn [for_break List.find]. unfold bind at 1.
  rewrite (threshold_body_run _ _ _ _ _ _ _ _ H).
  destruct (threshold_due tte d m).
  - by destruct (tzname t).
  - rewrite IH. destruct (List.find _ ms); [|done]. by destruct (tzname t).
Qed.

Lemma parse_start_time_run event_summary dateTime T :
  parse_start_time event_summary dateTime T =
    (Returned (parsed_start dateTime), T, parse_logs event_summary dateTime).
Proof.
  unfold parse_start_time, parsed_start, parse_logs.
  destruct (fromisoformat _); [done|].
  unfold bind; simpl. by destruct (strptime_datetime _).
Qed.

Lemma notifications_parse_logs event_summary dateTime :
  notifications (parse_logs event_summary dateTime) = [].
Proof.
  unfold parse_logs. destruct (fromisoformat _); [done|].
  by destruct (strptime_datetime _).
Qed.

Lemma timed_branch_run now_local event_id event_summary event_html_link t T d :
  T !! event_id = Some d →
  let r := timed_branch now_local event_id event_summary event_html_link t T in
  match timed_verdict t (t - now_local) d with
  | Fire k =>
      outcome_of r = Returned tt
      ∧ state_of r = <[event_id := <[k := true]> d]> T
      ∧ notifications (trace_of r) = [(event_id, k)]
  | Skip => r = (Returned tt, T, [])
  | Fail e => r = (Raised e, T, [])
  end.
Proof.
  intros H. unfold timed_branch, timed_verdict. cbv zeta.
  destruct ((timedelta_minutes (-5) <? t - now_local)
            && (t - now_local <=? timedelta_seconds 0)).
  - rewrite (started_branch_run _ _ _ _ _ H).
    by destruct (default false (d !! k_started)).
  - rewrite (for_break_thresholds_run _ _ _ _ _ _ _ _ H).
    destruct (List.find _ _); [|done]. by destruct (tzname t).
Qed.

Lemma all_day_branch_run now_local event_id event_summary event_html_link s T d :
  T !! event_id = Some d →
  let r := all_day_branch now_local event_id event_summary event_html_link s T in
  match verdict_of now_local (Event.mk event_id None None (StartDate s)) d with
  | Fire k =>
      outcome_of r = Returned tt
      ∧ state_of r = <[event_id := <[k := true]> d]> T
      ∧ notifications (trace_of r) = [(event_id, k)]
  | Skip => r = (Returned tt, T, [])
  | Fail e => r = (Raised e, T, [])
  end.
Proof.
  intros H. unfold all_day_branch, verdict_of. cbn [Event.start].
  destruct (strptime_date s) as [event_date|]; [|done].
  destruct (bool_decide (event_date = local_date now_local)); simpl; [|done].
  unfold bind. rewrite (get_flag_run _ _ _ _ H).
  destruct (default false (d !! k_all_day_today)); simpl; [done|].
  by rewrite (set_flag_run _ _ _ _ H).
Qed.

(** Lines 141-142 leave the table with an entry for the identifier. *)
Lemma ensure_entry_run {A} event_id (rest : M A) T :
  (known <- contains event_id ;;
   (if negb known then set_entry event_id ∅ else ret tt) ;;
   rest) T =
    rest (<[event_id := default ∅ (T !! event_id)]> T).
Proof.
  unfold bind, contains, set_entry, ret.
  destruct (T !! event_id) as [d|] eqn:H; simpl.
  - rewrite insert_id by done. by destruct (rest T) as [[? ?] ?].
  - by destruct (rest _) as [[? ?] ?].
Qed.

(** The body of the event loop carries out the verdict on the entry of
    the event: it sets the flag of a [Fire] and nothing else, and a [Fail]
    is the exception that leaves it. *)
Lemma event_body_verdict now_local event T :
  let event_id := Event.id event in
  let d := default ∅ (T !! event_id) in
  let r := event_body now_local event T in
  match verdict_of now_local event d with
  | Fire k =>
      outcome_of r = Returned tt
      ∧ state_of r = <[event_id := <[k := true]> d]> T
      ∧ notifications (trace_of r) = [(event_id, k)]
  | Skip =>
      outcome_of r = Returned tt
      ∧ state_of r = <[event_id := d]> T
      ∧ notifications (trace_of r) = []
  | Fail e =>
      outcome_of r = Raised e
      ∧ state_of r = <[event_id := d]> T
      ∧ notifications (trace_of r) = []
  end.
Proof.
  intros event_id d r. subst r. unfold event_body. fold event_id.
  rewrite ensure_entry_run. fold d.
  assert (Hd : <[event_id := d]> T !! event_id = Some d) by apply lookup_insert_eq.
  destruct event as [i sm ln [dateTime|s]]; cbn [Event.start Event.id] in *.
  - unfold verdict_of; cbn [Event.start].
    unfold bind. rewrite parse_start_time_run.
    destruct (parsed_start dateTime) as [x|].
    + destruct (astimezone x) as [t|].
      * pose proof (timed_branch_run now_local event_id (default "No Title" sm)
                      (default "#" ln) t _ d Hd) as Hrun.
        cbv zeta in Hrun.
        destruct (timed_branch _ _ _ _ _ _) as [[o T'] tr].
        destruct (timed_verdict _ _ d); unfold outcome_of, state_of, trace_of in *;
          simpl in *.
        -- destruct Hrun as (-> & -> & Hn). rewrite insert_insert_eq.
           split_and!; [done..|].
           by rewrite notifications_app, Hn, notifications_parse_logs.
        -- injection Hrun as -> -> ->. split_and!; [done..|].
           rewrite app_nil_r. apply notifications_parse_logs.
        -- injection Hrun as -> -> ->. split_and!; [done..|].
           rewrite app_nil_r. apply notifications_parse_logs.
      * unfold outcome_of, state_of, trace_of. simpl. split_and!; [done..|].
        rewrite app_nil_r. apply notifications_parse_logs.
    + simpl. split_and!; [done..|]. rewrite app_nil_r.
      apply notifications_parse_logs.
  - pose proof (all_day_branch_run now_local event_id (default "No Title" sm)
                  (default "#" ln) s _ d Hd) as Hrun.
    cbv zeta in Hrun. unfold verdict_of in *. cbn [Event.start] in *.
    destruct (all_day_branch _ _ _ _ _ _) as [[o T'] tr].
    destruct (strptime_date s) as [event_date|].
    + destruct (bool_decide _ && negb _); unfold outcome_of, state_of, trace_of in *;
        simpl in *.
      * destruct Hrun as (-> & -> & Hn). by rewrite insert_insert_eq.
      * by injection Hrun as -> -> ->.
    + unfold outcome_of, state_of, trace_of. simpl. by injection Hrun as -> -> ->.
Qed.

End Runs.

(** ** Flags and counts *)

Lemma sent_count_app event_id k tr1 tr2 :
  sent_count event_id k (tr1 ++ tr2) =
    (sent_count event_id k tr1 + sent_count event_id k tr2)%nat.
Proof.
  unfold sent_count. by rewrite notifications_app, filter_app, length_app.
Qed.

Lemma sent_count_nil_notifications event_id k tr :
  notifications tr = [] → sent_count event_id k tr = 0%nat.
Proof. unfold sent_count. by intros ->. Qed.

Lemma sent_count_same_notifications event_id k tr1 tr2 :
  notifications tr1 = notifications tr2 →
  sent_count event_id k tr1 = sent_count event_id k tr2.
Proof. unfold sent_count. by intros ->. Qed.

Lemma sent_count_pos event_id k tr :
  (event_id, k) ∈ notifications tr ↔ (0 < sent_count event_id k tr)%nat.
Proof.
  unfold sent_count. split.
  - intros Hin. destruct (filter _ _) as [|p l] eqn:E; [|simpl; lia].
    exfalso. eapply filter_nil_not_elem_of; [exact E| |exact Hin]. done.
  - intros Hpos. destruct (filter _ _) as [|p l] eqn:E; [simpl in Hpos; lia|].
    assert (Hp : p ∈ filter (λ p, p = (event_id, k)) (notifications tr))
      by (rewrite E; apply list_elem_of_here).
    apply list_elem_of_filter in Hp as [-> Hp]. done.
Qed.

Lemma fired_ensure T event_id event_id' k :
  fired (<[event_id := default ∅ (T !! event_id)]> T) event_id' k = fired T event_id' k.
Proof.
  unfold fired. destruct (decide (event_id = event_id')) as [->|Hne].
  - rewrite lookup_insert_eq. by destruct (T !! event_id').
  - by rewrite lookup_insert_ne.
Qed.

Lemma fired_set T event_id k event_id' k' :
  fired (<[event_id := <[k := true]> (default ∅ (T !! event_id))]> T) event_id' k' =
    if decide (event_id' = event_id ∧ k' = k) then true else fired T event_id' k'.
Proof.
  unfold fired. destruct (decide (event_id = event_id')) as [->|Hne].
  - rewrite lookup_insert_eq. destruct (decide (k = k')) as [->|Hk].
    + rewrite lookup_insert_eq. by rewrite decide_True.
    + rewrite lookup_insert_ne by done.
      rewrite decide_False by (intros [_ ?]; congruence).
      by destruct (T !! event_id').
  - rewrite lookup_insert_ne by done.
    by rewrite decide_False by (intros [? _]; congruence).
Qed.

Lemma fired_default T event_id k :
  default false (default ∅ (T !! event_id) !! k) = fired T event_id k.
Proof. unfold fired. by destruct (T !! event_id). Qed.

Lemma fired_same_entry T T' event_id k :
  T !! event_id = T' !! event_id → fired T event_id k = fired T' event_id k.
Proof. unfold fired. by intros ->. Qed.

Section Accounting.
Context {lib : DatetimeLib}.

(** A verdict fires only a flag that is not set. *)
Lemma verdict_fire_unset now_local event d k :
  verdict_of now_local event d = Fire k → default false (d !! k) = false.
Proof.
  unfold verdict_of, timed_verdict.
  destruct (Event.start event) as [dateTime|s].
  - destruct (parsed_start dateTime) as [x|]; [|done].
    destruct (astimezone x) as [t|]; [|done].
    destruct (_ && _).
    + destruct (default false (d !! k_started)) eqn:E; [done|]. by intros [= <-].
    + destruct (List.find _ _) as [m|] eqn:E; [|done].
      destruct (tzname t); [|done]. intros [= <-].
      apply find_some in E as [_ E]. unfold threshold_due in E.
      apply andb_prop in E as [_ E]. by apply negb_true_iff in E.
  - destruct (strptime_date s) as [event_date|]; [|done].
    destruct (bool_decide _); simpl; [|done].
    destruct (default false (d !! k_all_day_today)) eqn:E; [done|]. by intros [= <-].
Qed.

(** A notification is emitted exactly when a flag goes from unset to
    set: per identifier and milestone, the notifications of the trace and
    the flag before add up to the flag after. *)
Lemma event_body_accounting now_local event T event_id k :
  let r := event_body now_local event T in
  (sent_count event_id k (trace_of r) + Nat.b2n (fired T event_id k)
   = Nat.b2n (fired (state_of r) event_id k))%nat.
Proof.
  intros r. pose proof (event_body_verdict now_local event T) as Hv.
  cbv zeta in Hv. fold r in Hv.
  destruct (verdict_of _ _ _) as [k0| |e] eqn:Ev.
  - destruct Hv as (_ & -> & Hn).
    apply verdict_fire_unset in Ev. rewrite fired_default in Ev.
    rewrite fired_set. unfold sent_count. rewrite Hn.
    rewrite filter_cons, filter_nil.
    destruct (decide (event_id = Event.id event ∧ k = k0)) as [[-> ->]|Hne].
    + rewrite decide_True by done. by rewrite Ev.
    + rewrite decide_False by naive_solver. done.
  - destruct Hv as (_ & -> & Hn). rewrite fired_ensure.
    by rewrite sent_count_nil_notifications.
  - destruct Hv as (_ & -> & Hn). rewrite fired_ensure.
    by rewrite sent_count_nil_notifications.
Qed.

Lemma for_each_accounting now_local events T event_id k :
  let r := for_each events (event_body now_local) T in
  (sent_count event_id k (trace_of r) + Nat.b2n (fired T event_id k)
   = Nat.b2n (fired (state_of r) event_id k))%nat.
Proof.
  revert T. induction events as [|event events IH]; intros T; [done|].
  cbn [for_each]. unfold bind.
  pose proof (event_body_accounting now_local event T event_id k) as H1.
  cbv zeta in H1.
  destruct (event_body now_local event T) as [[[[]|e] T1] tr1].
  - specialize (IH T1). cbv zeta in IH.
    destruct (for_each events _ T1) as [[o T2] tr2].
    unfold trace_of, state_of in *. simpl in *.
    rewrite sent_count_app. lia.
  - done.
Qed.

Lemma check_and_remind_accounting now_local events T event_id k :
  let r := check_and_remind now_local events T in
  (sent_count event_id k (trace_of r) + Nat.b2n (fired T event_id k)
   = Nat.b2n (fired (state_of r) event_id k))%nat.
Proof.
  unfold check_and_remind, bind, logger, emit. cbv zeta.
  destruct events as [|event events]; [done|].
  pose proof (for_each_accounting now_local (event :: events) T event_id k) as H.
  cbv zeta in H.
  destruct (for_each _ _ T) as [[o T1] tr1].
  by unfold trace_of, state_of in *.
Qed.

Lemma run_polls_accounting polls T event_id k :
  let r := run_polls polls T in
  (sent_count event_id k r.2 + Nat.b2n (fired T event_id k)
   = Nat.b2n (fired r.1 event_id k))%nat.
Proof.
  revert T. induction polls as [|[now_local events] polls IH]; intros T; [done|].
  cbn [run_polls]. cbv zeta.
  pose proof (check_and_remind_accounting now_local events T event_id k) as H1.
  cbv zeta in H1. specialize (IH (state_of (check_and_remind now_local events T))).
  cbv zeta in IH. simpl. rewrite sent_count_app. lia.
Qed.

End Accounting.

(** ** What one pass does with one event *)

Lemma in_window_iff tte m :
  in_window tte m = true ↔
  timedelta_seconds (-10) ≤ tte - timedelta_minutes m < timedelta_minutes 1.
Proof. unfold in_window. rewrite andb_true_iff, Z.leb_le, Z.ltb_lt. done. Qed.

(** The windows of two different thresholds of the engine do not meet. *)
Lemma windows_disjoint tte m m' :
  m ∈ reminder_thresholds → m' ∈ reminder_thresholds →
  in_window tte m = true → in_window tte m' = true → m = m'.
Proof.
  unfold reminder_thresholds. rewrite !in_window_iff.
  unfold timedelta_seconds, timedelta_minutes.
  rewrite !elem_of_cons, !elem_of_nil. lia.
Qed.

Lemma sorted_reverse_thresholds : sorted_reverse reminder_thresholds = [15; 5; 1].
Proof. reflexivity. Qed.

Lemma threshold_due_iff tte d m :
  threshold_due tte d m = true ↔
  in_window tte m = true ∧ 0 < tte ∧ default false (d !! k_threshold m) = false.
Proof.
  unfold threshold_due, timedelta_seconds.
  rewrite !andb_true_iff, negb_true_iff, Z.gtb_gt. intuition lia.
Qed.

(** The loop over the thresholds finds the one threshold of the engine
    that is due, if there is one. *)
Lemma find_due tte d m :
  List.find (threshold_due tte d) (sorted_reverse reminder_thresholds) = Some m ↔
  m ∈ reminder_thresholds ∧ threshold_due tte d m = true.
Proof.
  split.
  - intros [Hin E]%find_some. split; [|done].
    apply list_elem_of_In. by rewrite sorted_reverse_thresholds in Hin.
  - intros [Hm Hdue].
    destruct (List.find _ _) as [m'|] eqn:E.
    + apply find_some in E as [Hin' E'].
      apply list_elem_of_In in Hin'. rewrite sorted_reverse_thresholds in Hin'.
      apply threshold_due_iff in Hdue as (Hw & _ & _).
      apply threshold_due_iff in E' as (Hw' & _ & _).
      f_equal. by apply (windows_disjoint tte).
    + exfalso. assert (Hf : threshold_due tte d m = false).
      { apply (find_none _ _ E m). apply list_elem_of_In.
        by rewrite sorted_reverse_thresholds. }
      congruence.
Qed.

Section Verdicts.
Context {lib : DatetimeLib}.

Lemma event_body_notifications now_local event T :
  notifications (trace_of (event_body now_local event T)) =
    match verdict_of now_local event (default ∅ (T !! Event.id event)) with
    | Fire k => [(Event.id event, k)]
    | _ => []
    end.
Proof.
  pose proof (event_body_verdict now_local event T) as H. cbv zeta in H.
  by destruct (verdict_of _ _ _); destruct H as (_ & _ & ->).
Qed.

Lemma event_body_state now_local event T :
  state_of (event_body now_local event T) =
    match verdict_of now_local event (default ∅ (T !! Event.id event)) with
    | Fire k =>
        <[Event.id event := <[k := true]> (default ∅ (T !! Event.id event))]> T
    | _ => <[Event.id event := default ∅ (T !! Event.id event)]> T
    end.
Proof.
  pose proof (event_body_verdict now_local event T) as H. cbv zeta in H.
  by destruct (verdict_of _ _ _); destruct H as (_ & -> & _).
Qed.

Lemma event_body_outcome now_local event T :
  outcome_of (event_body now_local event T) =
    match verdict_of now_local event (default ∅ (T !! Event.id event)) with
    | Fail e => Raised e
    | _ => Returned tt
    end.
Proof.
  pose proof (event_body_verdict now_local event T) as H. cbv zeta in H.
  by destruct (verdict_of _ _ _); destruct H as (-> & _ & _).
Qed.

(** The verdict of a timed event, case by case. *)
Lemma timed_verdict_fire_threshold t tte d m :
  timed_verdict t tte d = Fire (k_threshold m) ↔
  m ∈ reminder_thresholds ∧ in_window tte m = true ∧ 0 < tte
  ∧ default false (d !! k_threshold m) = false ∧ is_Some (tzname t).
Proof.
  unfold timed_verdict.
  destruct ((timedelta_minutes (-5) <? tte) && (tte <=? timedelta_seconds 0)) eqn:Ew.
  - apply andb_true_iff in Ew as [_ Ew%Z.leb_le]. unfold timedelta_seconds in Ew.
    split.
    + by destruct (default false _).
    + intros (_ & _ & Hpos & _). lia.
  - destruct (List.find _ _) as [m'|] eqn:E.
    + apply find_due in E as [Hm' Hdue'].
      pose proof Hdue' as (Hw' & Hpos' & Hu')%threshold_due_iff.
      destruct (tzname t) as [zone_name|]; split.
      * intros [= <-]. split_and!; try done; by eexists.
      * intros (Hm & Hw & _). by rewrite (windows_disjoint tte m m' Hm Hm' Hw Hw').
      * done.
      * by intros (_ & _ & _ & _ & [? ?]).
    + split; [done|]. intros (Hm & Hw & Hpos & Hu & _). exfalso.
      assert (Hsome : List.find (threshold_due tte d)
                        (sorted_reverse reminder_thresholds) = Some m).
      { apply find_due. split; [done|]. by apply threshold_due_iff. }
      congruence.
Qed.

Lemma timed_verdict_fire_started t tte d :
  timed_verdict t tte d = Fire k_started ↔
  (timedelta_minutes (-5) < tte ≤ timedelta_seconds 0)
  ∧ default false (d !! k_started) = false.
Proof.
  unfold timed_verdict.
  destruct ((timedelta_minutes (-5) <? tte) && (tte <=? timedelta_seconds 0)) eqn:E.
  - apply andb_true_iff in E as [E1%Z.ltb_lt E2%Z.leb_le].
    destruct (default false (d !! k_started)); split.
    * done.
    * by intros [_ ?].
    * intros _. split; [lia|done].
    * done.
  - split.
    + destruct (List.find _ _); [|done]. by destruct (tzname t).
    + intros [[H1%Z.ltb_lt H2%Z.leb_le] _]. by rewrite H1, H2 in E.
Qed.

Lemma timed_verdict_fire_cases t tte d k :
  timed_verdict t tte d = Fire k →
  k = k_started ∨ ∃ m, k = k_threshold m.
Proof.
  unfold timed_verdict. destruct (_ && _).
  - destruct (default false _); [done|]. intros [= <-]. by left.
  - destruct (List.find _ _) as [m|]; [|done].
    destruct (tzname t); [|done]. intros [= <-]. right. by exists m.
Qed.

(** A timed event fails only at line 191: a threshold is due and
    [tzname] raises. *)
Lemma timed_verdict_fail t tte d e :
  timed_verdict t tte d = Fail e ↔
  e = ValueError ∧ tzname t = None
  ∧ ∃ m, m ∈ reminder_thresholds ∧ in_window tte m = true ∧ 0 < tte
         ∧ default false (d !! k_threshold m) = false.
Proof.
  unfold timed_verdict.
  destruct ((timedelta_minutes (-5) <? tte) && (tte <=? timedelta_seconds 0)) eqn:Ew.
  - apply andb_true_iff in Ew as [_ Ew%Z.leb_le]. unfold timedelta_seconds in Ew.
    split.
    + by destruct (default false _).
    + intros (_ & _ & m & _ & _ & Hpos & _). lia.
  - destruct (List.find _ _) as [m'|] eqn:E.
    + apply find_due in E as [Hm' Hdue'].
      pose proof Hdue' as (Hw' & Hpos' & Hu')%threshold_due_iff.
      destruct (tzname t) as [zone_name|]; split.
      * done.
      * by intros (_ & ? & _).
      * intros [= <-]. split_and!; try done; by exists m'.
      * by intros (-> & _).
    + split; [done|]. intros (_ & _ & m & Hm & Hw & Hpos & Hu). exfalso.
      assert (Hsome : List.find (threshold_due tte d)
                        (sorted_reverse reminder_thresholds) = Some m).
      { apply find_due. split; [done|]. by apply threshold_due_iff. }
      congruence.
Qed.

(** From the start on, no threshold is the verdict and nothing fails. *)
Lemma timed_verdict_started t tte d :
  tte ≤ 0 →
  (∀ m, timed_verdict t tte d ≠ Fire (k_threshold m))
  ∧ (∀ e, timed_verdict t tte d ≠ Fail e).
Proof.
  intros Hle. split.
  - intros m (_ & _ & Hpos & _)%timed_verdict_fire_threshold. lia.
  - intros e (_ & _ & m & _ & _ & Hpos & _)%timed_verdict_fail. lia.
Qed.

Lemma verdict_of_timed now_local event dateTime t d :
  Event.start event = StartDateTime dateTime →
  local_start dateTime = Some t →
  verdict_of now_local event d = timed_verdict t (t - now_local) d.
Proof.
  intros Hs Hp. unfold verdict_of, local_start in *. rewrite Hs.
  destruct (parsed_start dateTime) as [x|]; [|done]. by rewrite Hp.
Qed.

(** A verdict on a timed event is the verdict on its local start. *)
Lemma verdict_of_timed_inv now_local event d v :
  verdict_of now_local event d = v →
  v ≠ Skip →
  (∃ dateTime t, Event.start event = StartDateTime dateTime
                 ∧ local_start dateTime = Some t
                 ∧ timed_verdict t (t - now_local) d = v)
  ∨ (∃ dateTime x, Event.start event = StartDateTime dateTime
                   ∧ parsed_start dateTime = Some x ∧ astimezone x = None
                   ∧ v = Fail OverflowError)
  ∨ (∃ s, Event.start event = StartDate s).
Proof.
  unfold verdict_of, local_start.
  destruct (Event.start event) as [dateTime|s]; [|by right; right; eexists].
  destruct (parsed_start dateTime) as [x|] eqn:Ep; [|by intros <-].
  destruct (astimezone x) as [t|] eqn:Ea.
  - intros Hv _. left. exists dateTime, t. by rewrite Ep.
  - intros <- _. right. left. by exists dateTime, x.
Qed.

(** The verdict reads the table only through the flags of the event. *)
Lemma find_ext {A} (f g : A → bool) l :
  (∀ x, f x = g x) → List.find f l = List.find g l.
Proof.
  intros H. induction l as [|x l IH]; [done|]. simpl. by rewrite H, IH.
Qed.

Lemma verdict_flags_ext now_local event d d' :
  (∀ k, default false (d !! k) = default false (d' !! k)) →
  verdict_of now_local event d = verdict_of now_local event d'.
Proof.
  intros H. unfold verdict_of, timed_verdict.
  destruct (Event.start event) as [dateTime|s].
  - destruct (parsed_start dateTime) as [x|]; [|done].
    destruct (astimezone x) as [t|]; [|done].
    rewrite (H k_started).
    rewrite (find_ext (threshold_due (t - now_local) d)
               (threshold_due (t - now_local) d')); [done|].
    intros m. unfold threshold_due. by rewrite H.
  - destruct (strptime_date s); [|done]. by rewrite H.
Qed.

(** A verdict that fires or fails on a table does the same on every table
    with fewer flags for the event. *)
Lemma verdict_antitone now_local event d d' v :
  (∀ k, default false (d !! k) = true → default false (d' !! k) = true) →
  verdict_of now_local event d' = v → v ≠ Skip →
  verdict_of now_local event d = v.
Proof.
  intros Hsub Hv Hns.
  assert (Hu : ∀ k, default false (d' !! k) = false → default false (d !! k) = false).
  { intros k H'. destruct (default false (d !! k)) eqn:E; [|done].
    apply Hsub in E. congruence. }
  destruct (verdict_of_timed_inv _ _ _ _ Hv Hns)
    as [(dateTime & t & Hs & Hp & Ht)|[(dateTime & x & Hs & Hp & Ha & ->)|[s Hs]]].
  - rewrite (verdict_of_timed _ _ _ _ _ Hs Hp).
    destruct v as [k| |e]; [|done|].
    + destruct (timed_verdict_fire_cases _ _ _ _ Ht) as [->|[m ->]].
      * apply timed_verdict_fire_started in Ht as [? ?].
        apply timed_verdict_fire_started. auto.
      * apply timed_verdict_fire_threshold in Ht as (? & ? & ? & ? & ?).
        apply timed_verdict_fire_threshold. auto 10.
    + apply timed_verdict_fail in Ht as (? & ? & m & ? & ? & ? & ?).
      apply timed_verdict_fail. split_and!; [done..|]. exists m. auto.
  - unfold verdict_of. by rewrite Hs, Hp, Ha.
  - revert Hv. unfold verdict_of. rewrite Hs.
    destruct (strptime_date s) as [event_date|]; [|done].
    destruct (bool_decide _); simpl; [|done].
    destruct (default false (d' !! k_all_day_today)) eqn:E; simpl.
    + intros <-. done.
    + intros <-. by rewrite (Hu _ E).
Qed.

End Verdicts.

(** ** The loop over the events, one step at a time *)

#[local] Set Warnings "-clear-no-such-hyp".

Lemma outcome_cases (o : outcome unit) : o = Returned tt ∨ ∃ e, o = Raised e.
Proof. destruct o as [[]|e]; [by left|right; by exists e]. Qed.

Lemma outcome_of_mk {A} (o : outcome A) (T : Reminders) (tr : list effect) :
  outcome_of (o, T, tr) = o.
Proof. reflexivity. Qed.

Lemma state_of_mk {A} (o : outcome A) (T : Reminders) (tr : list effect) :
  state_of (o, T, tr) = T.
Proof. reflexivity. Qed.

Lemma trace_of_mk {A} (o : outcome A) (T : Reminders) (tr : list effect) :
  trace_of (o, T, tr) = tr.
Proof. reflexivity. Qed.

Section Steps.
Context {lib : DatetimeLib}.

Lemma for_each_cons_returned now_local event events T :
  outcome_of (event_body now_local event T) = Returned tt →
  let r := event_body now_local event T in
  let r' := for_each events (event_body now_local) (state_of r) in
  for_each (event :: events) (event_body now_local) T
  = (outcome_of r', state_of r', trace_of r ++ trace_of r').
Proof.
  intros Ho. cbn [for_each]. unfold bind.
  destruct (event_body now_local event T) as [[[[]|e] T1] tr1];
    unfold outcome_of, state_of, trace_of in *; simpl in *; [|done].
  by destruct (for_each events _ T1) as [[o T2] tr2].
Qed.

Lemma for_each_cons_raised now_local event events T e :
  outcome_of (event_body now_local event T) = Raised e →
  for_each (event :: events) (event_body now_local) T
  = (Raised e, state_of (event_body now_local event T),
     trace_of (event_body now_local event T)).
Proof.
  intros Ho. cbn [for_each]. unfold bind.
  destruct (event_body now_local event T) as [[[[]|e'] T1] tr1];
    unfold outcome_of, state_of, trace_of in *; simpl in *; [done|].
  by injection Ho as ->.
Qed.

Lemma for_each_state_returned now_local event events T :
  outcome_of (event_body now_local event T) = Returned tt →
  state_of (for_each (event :: events) (event_body now_local) T)
  = state_of (for_each events (event_body now_local)
                (state_of (event_body now_local event T))).
Proof. intros Ho. by rewrite (for_each_cons_returned _ _ _ _ Ho). Qed.

Lemma for_each_trace_returned now_local event events T :
  outcome_of (event_body now_local event T) = Returned tt →
  trace_of (for_each (event :: events) (event_body now_local) T)
  = trace_of (event_body now_local event T)
    ++ trace_of (for_each events (event_body now_local)
                   (state_of (event_body now_local event T))).
Proof. intros Ho. by rewrite (for_each_cons_returned _ _ _ _ Ho). Qed.

Lemma for_each_outcome_returned now_local event events T :
  outcome_of (event_body now_local event T) = Returned tt →
  outcome_of (for_each (event :: events) (event_body now_local) T)
  = outcome_of (for_each events (event_body now_local)
                  (state_of (event_body now_local event T))).
Proof. intros Ho. by rewrite (for_each_cons_returned _ _ _ _ Ho). Qed.

Lemma for_each_state_raised now_local event events T e :
  outcome_of (event_body now_local event T) = Raised e →
  state_of (for_each (event :: events) (event_body now_local) T)
  = state_of (event_body now_local event T).
Proof. intros Ho. by rewrite (for_each_cons_raised _ _ _ _ _ Ho). Qed.

Lemma for_each_trace_raised now_local event events T e :
  outcome_of (event_body now_local event T) = Raised e →
  trace_of (for_each (event :: events) (event_body now_local) T)
  = trace_of (event_body now_local event T).
Proof. intros Ho. by rewrite (for_each_cons_raised _ _ _ _ _ Ho). Qed.

Lemma for_each_outcome_raised now_local event events T e :
  outcome_of (event_body now_local event T) = Raised e →
  outcome_of (for_each (event :: events) (event_body now_local) T) = Raised e.
Proof. intros Ho. by rewrite (for_each_cons_raised _ _ _ _ _ Ho). Qed.

(** The loop over a batch in two parts: when the first part returns, the
    second part runs on the table the first part left; when the first
    part raises, the second part is not run. *)
Lemma for_each_app_returned now_local pre post T :
  outcome_of (for_each pre (event_body now_local) T) = Returned tt →
  let r1 := for_each pre (event_body now_local) T in
  let r2 := for_each post (event_body now_local) (state_of r1) in
  for_each (pre ++ post) (event_body now_local) T
  = (outcome_of r2, state_of r2, trace_of r1 ++ trace_of r2).
Proof.
  revert T. induction pre as [|event pre IH]; intros T Ho; cbv zeta.
  - cbn [app for_each]. unfold ret, state_of, trace_of, outcome_of.
    cbn [fst snd app]. by destruct (for_each post _ T) as [[o T2] tr2].
  - rewrite <- app_comm_cons.
    destruct (outcome_cases (outcome_of (event_body now_local event T)))
      as [Hb|[e Hb]].
    + rewrite (for_each_outcome_returned _ _ _ _ Hb) in Ho.
      rewrite !(for_each_cons_returned _ _ _ _ Hb). cbv zeta.
      rewrite (IH _ Ho). cbv zeta.
      unfold outcome_of, state_of, trace_of. cbn [fst snd].
      by rewrite app_assoc.
    + by rewrite (for_each_outcome_raised _ _ _ _ _ Hb) in Ho.
Qed.

Lemma for_each_app_raised now_local pre post T e :
  outcome_of (for_each pre (event_body now_local) T) = Raised e →
  for_each (pre ++ post) (event_body now_local) T
  = for_each pre (event_body now_local) T.
Proof.
  revert T. induction pre as [|event pre IH]; intros T Ho; [done|].
  rewrite <- app_comm_cons.
  destruct (outcome_cases (outcome_of (event_body now_local event T)))
    as [Hb|[e' Hb]].
  - rewrite (for_each_outcome_returned _ _ _ _ Hb) in Ho.
    rewrite !(for_each_cons_returned _ _ _ _ Hb). cbv zeta.
    by rewrite (IH _ Ho).
  - by rewrite !(for_each_cons_raised _ _ _ _ _ Hb).
Qed.

(** A check does to the table, and notifies, what the loop over its batch
    does; the two differ in log records only. *)
Lemma check_and_remind_for_each now_local events T :
  let r := check_and_remind now_local events T in
  let r' := for_each events (event_body now_local) T in
  outcome_of r = outcome_of r' ∧ state_of r = state_of r'
  ∧ notifications (trace_of r) = notifications (trace_of r').
Proof.
  unfold check_and_remind, bind, logger, emit.
  destruct events as [|event events]; [done|].
  cbv beta iota zeta. generalize (event :: events). clear. intros events.
  by destruct (for_each events _ T) as [[o T1] tr1].
Qed.

Lemma check_and_remind_outcome now_local events T :
  outcome_of (check_and_remind now_local events T)
  = outcome_of (for_each events (event_body now_local) T).
Proof. apply check_and_remind_for_each. Qed.

Lemma check_and_remind_state now_local events T :
  state_of (check_and_remind now_local events T)
  = state_of (for_each events (event_body now_local) T).
Proof. apply check_and_remind_for_each. Qed.

Lemma check_and_remind_notifications now_local events T :
  notifications (trace_of (check_and_remind now_local events T))
  = notifications (trace_of (for_each events (event_body now_local) T)).
Proof. apply check_and_remind_for_each. Qed.

Lemma check_and_remind_nonempty now_local events T :
  events ≠ [] →
  let r' := for_each events (event_body now_local) T in
  check_and_remind now_local events T
  = (outcome_of r', state_of r',
     Log INFO ("Running reminder check at " +:+ strftime_YmdHMS now_local)
       :: trace_of r').
Proof.
  intros Hne. unfold check_and_remind, bind, logger, emit.
  destruct events as [|event events]; [done|].
  cbv beta zeta. generalize (event :: events). clear. intros events.
  by destruct (for_each events _ T) as [[o T1] tr1].
Qed.

Lemma run_polls_app polls1 polls2 T :
  run_polls (polls1 ++ polls2) T
  = ((run_polls polls2 (run_polls polls1 T).1).1,
     (run_polls polls1 T).2 ++ (run_polls polls2 (run_polls polls1 T).1).2).
Proof.
  revert T. induction polls1 as [|[now_local events] polls1 IH]; intros T.
  - cbn [app run_polls fst snd]. by destruct (run_polls polls2 T).
  - rewrite <- app_comm_cons. cbn [run_polls]. cbv zeta. rewrite IH.
    cbn [fst snd]. by rewrite app_assoc.
Qed.

(** ** Where an effect comes from *)

(** Every effect of a pass over a batch is an effect of the body on one
    of its events. *)
Lemma for_each_trace_origin now_local events T e :
  e ∈ trace_of (for_each events (event_body now_local) T) →
  ∃ event T', event ∈ events ∧ e ∈ trace_of (event_body now_local event T').
Proof.
  revert T. induction events as [|event events IH]; intros T.
  - by intros ?%elem_of_nil.
  - cbn [for_each]. unfold bind.
    destruct (event_body now_local event T) as [[[[]|ex] T1] tr1] eqn:E.
    + specialize (IH T1). destruct (for_each events _ T1) as [[o T2] tr2].
      unfold trace_of in *. simpl in *.
      intros [Hin|Hin]%elem_of_app.
      * exists event, T. rewrite E. split; [apply list_elem_of_here|done].
      * destruct (IH Hin) as (event' & T' & ? & ?).
        exists event', T'. split; [by apply list_elem_of_further|done].
    + intros Hin. exists event, T. rewrite E.
      split; [apply list_elem_of_here|done].
Qed.

Lemma check_and_remind_trace_origin now_local events T e :
  e ∈ trace_of (check_and_remind now_local events T) →
  (∃ msg, e = Log INFO msg)
  ∨ ∃ event T', event ∈ events ∧ e ∈ trace_of (event_body now_local event T').
Proof.
  unfold check_and_remind, bind, logger, emit.
  destruct events as [|event events].
  - unfold trace_of. simpl. rewrite !elem_of_cons, elem_of_nil.
    intros [->|[->|[]]]; left; eauto.
  - pose proof (for_each_trace_origin now_local (event :: events) T e) as H.
    destruct (for_each _ _ T) as [[o T1] tr1]. unfold trace_of in *. simpl in *.
    intros [->|Hin]%elem_of_cons; [left; eauto|right; auto].
Qed.

Lemma run_polls_trace_origin polls T e :
  e ∈ (run_polls polls T).2 →
  ∃ now_local events T',
    (now_local, events) ∈ polls
    ∧ e ∈ trace_of (check_and_remind now_local events T').
Proof.
  revert T. induction polls as [|[now_local events] polls IH]; intros T.
  - by intros ?%elem_of_nil.
  - cbn [run_polls]. cbv zeta. simpl. intros [Hin|Hin]%elem_of_app.
    + exists now_local, events, T. split; [apply list_elem_of_here|done].
    + destruct (IH _ Hin) as (n & ev & T' & ? & ?).
      exists n, ev, T'. split; [by apply list_elem_of_further|done].
Qed.

Lemma notification_in_trace event_id k tr :
  (event_id, k) ∈ notifications tr ↔
  ∃ title message, Notify event_id k title message ∈ tr.
Proof.
  unfold notifications. rewrite list_elem_of_omap. split.
  - intros ([i k' title message|lv msg] & Hin & Hl); simpl in Hl; [|done].
    injection Hl as -> ->. eauto.
  - intros (title & message & Hin). eexists. split; [done|done].
Qed.

(** A notification of a check comes from the body run on an event, of
    that identifier, of its batch. *)
Lemma check_and_remind_notification_origin now_local events T event_id k :
  (event_id, k) ∈ notifications (trace_of (check_and_remind now_local events T)) →
  ∃ event (T' : Reminders),
    event ∈ events ∧ Event.id event = event_id
    ∧ verdict_of now_local event (default ∅ (T' !! Event.id event)) = Fire k.
Proof.
  intros (title & message & Hin)%notification_in_trace.
  apply check_and_remind_trace_origin in Hin as [[msg [=]]|(event & T'' & He & Hin)].
  assert (Hn : (event_id, k) ∈ notifications (trace_of (event_body now_local event T'')))
    by (apply notification_in_trace; eauto).
  rewrite event_body_notifications in Hn.
  destruct (verdict_of _ _ _) as [k'| |] eqn:E; [|by apply elem_of_nil in Hn..].
  apply list_elem_of_singleton in Hn as [= -> ->].
  exists event, T''. done.
Qed.

Lemma run_polls_notification_origin polls T event_id k :
  (event_id, k) ∈ notifications (run_polls polls T).2 →
  ∃ now_local events event (T' : Reminders),
    (now_local, events) ∈ polls ∧ event ∈ events
    ∧ Event.id event = event_id
    ∧ verdict_of now_local event (default ∅ (T' !! Event.id event)) = Fire k.
Proof.
  intros (title & message & Hin)%notification_in_trace.
  apply run_polls_trace_origin in Hin as (now_local & events & T' & Hp & Hin).
  assert (Hn : (event_id, k)
               ∈ notifications (trace_of (check_and_remind now_local events T')))
    by (apply notification_in_trace; eauto).
  apply check_and_remind_notification_origin in Hn as (event & T'' & ? & ? & ?).
  by exists now_local, events, event, T''.
Qed.

(** ** Flags are only ever added *)

Lemma event_body_monotone now_local event T event_id k :
  fired T event_id k = true →
  fired (state_of (event_body now_local event T)) event_id k = true.
Proof.
  intros H. pose proof (event_body_accounting now_local event T event_id k) as Ha.
  cbv zeta in Ha. rewrite H in Ha. simpl in Ha.
  destruct (fired (state_of _) event_id k); [done|simpl in Ha; lia].
Qed.

Lemma for_each_monotone now_local events T event_id k :
  fired T event_id k = true →
  fired (state_of (for_each events (event_body now_local) T)) event_id k = true.
Proof.
  intros H. pose proof (for_each_accounting now_local events T event_id k) as Ha.
  cbv zeta in Ha. rewrite H in Ha. simpl in Ha.
  destruct (fired (state_of _) event_id k); [done|simpl in Ha; lia].
Qed.

Lemma check_and_remind_monotone now_local events T event_id k :
  fired T event_id k = true →
  fired (state_of (check_and_remind now_local events T)) event_id k = true.
Proof.
  intros H. pose proof (check_and_remind_accounting now_local events T event_id k) as Ha.
  cbv zeta in Ha. rewrite H in Ha. simpl in Ha.
  destruct (fired (state_of _) event_id k); [done|simpl in Ha; lia].
Qed.

Lemma run_polls_monotone polls T event_id k :
  fired T event_id k = true → fired (run_polls polls T).1 event_id k = true.
Proof.
  intros H. pose proof (run_polls_accounting polls T event_id k) as Ha.
  cbv zeta in Ha. rewrite H in Ha. simpl in Ha.
  destruct (fired (run_polls polls T).1 event_id k); [done|simpl in Ha; lia].
Qed.

(** A trace without a notification for a pair leaves its flag as it was. *)
Lemma run_polls_flag_unchanged polls T event_id k :
  (event_id, k) ∉ notifications (run_polls polls T).2 →
  fired (run_polls polls T).1 event_id k = fired T event_id k.
Proof.
  intros Hn. pose proof (run_polls_accounting polls T event_id k) as Ha.
  cbv zeta in Ha. rewrite sent_count_pos in Hn.
  destruct (fired T event_id k), (fired (run_polls polls T).1 event_id k);
    simpl in Ha; try done; lia.
Qed.

Lemma check_and_remind_flag_unchanged now_local events T event_id k :
  (event_id, k) ∉ notifications (trace_of (check_and_remind now_local events T)) →
  fired (state_of (check_and_remind now_local events T)) event_id k
  = fired T event_id k.
Proof.
  intros Hn. pose proof (check_and_remind_accounting now_local events T event_id k) as Ha.
  cbv zeta in Ha. rewrite sent_count_pos in Hn.
  destruct (fired T event_id k), (fired (state_of _) event_id k);
    simpl in Ha; try done; lia.
Qed.

(** ** Events of other identifiers *)

Lemma event_body_other_entry now_local event T event_id :
  Event.id event ≠ event_id →
  state_of (event_body now_local event T) !! event_id = T !! event_id.
Proof.
  intros Hne. rewrite event_body_state.
  by destruct (verdict_of _ _ _); rewrite lookup_insert_ne.
Qed.

Lemma for_each_other_entry now_local events T event_id :
  Forall (λ event, Event.id event ≠ event_id) events →
  state_of (for_each events (event_body now_local) T) !! event_id = T !! event_id.
Proof.
  intros Hall. revert T. induction Hall as [|event events Hne Hall IH]; intros T; [done|].
  destruct (outcome_cases (outcome_of (event_body now_local event T))) as [Ho|[e Ho]].
  - rewrite (for_each_state_returned _ _ _ _ Ho), IH.
    by apply event_body_other_entry.
  - rewrite (for_each_state_raised _ _ _ _ _ Ho). by apply event_body_other_entry.
Qed.

Lemma for_each_other_notifications now_local events T event_id k :
  Forall (λ event, Event.id event ≠ event_id) events →
  (event_id, k) ∉ notifications (trace_of (for_each events (event_body now_local) T)).
Proof.
  intros Hall (title & message & Hin)%notification_in_trace.
  apply for_each_trace_origin in Hin as (event & T' & Hev & Hin).
  assert (Hn : (event_id, k) ∈ notifications (trace_of (event_body now_local event T')))
    by (apply notification_in_trace; eauto).
  rewrite event_body_notifications in Hn.
  rewrite Forall_forall in Hall. specialize (Hall _ Hev).
  destruct (verdict_of _ _ _); [|by apply elem_of_nil in Hn..].
  apply list_elem_of_singleton in Hn as [= ? ?]. congruence.
Qed.

(** ** Running a batch again *)

(** Run again on a table with the flags that the loop left, the loop
    emits nothing: an event that was notified or skipped is skipped, and
    the event at which the first run raised raises again. *)
Lemma for_each_rerun now_local events T T' :
  (∀ event_id k,
     fired T' event_id k
     = fired (state_of (for_each events (event_body now_local) T)) event_id k) →
  notifications (trace_of (for_each events (event_body now_local) T')) = [].
Proof.
  revert T T'. induction events as [|event events IH]; intros T T' Hsame; [done|].
  assert (Hsub : ∀ k, default false (default ∅ (T !! Event.id event) !! k) = true →
                      default false (default ∅ (T' !! Event.id event) !! k) = true).
  { intros k. rewrite !fired_default, Hsame. apply for_each_monotone. }
  pose proof (event_body_notifications now_local event T') as Hn'.
  pose proof (event_body_outcome now_local event T') as Ho'.
  pose proof (event_body_state now_local event T') as Hst'.
  pose proof (event_body_outcome now_local event T) as Ho.
  pose proof (event_body_state now_local event T) as Hst.
  destruct (verdict_of now_local event (default ∅ (T' !! Event.id event)))
    as [k'| |e'] eqn:Ev'.
  - exfalso.
    pose proof (verdict_antitone _ _ _ _ _ Hsub Ev' ltac:(done)) as Ev.
    rewrite Ev in Ho, Hst.
    apply verdict_fire_unset in Ev'. rewrite fired_default, Hsame in Ev'.
    rewrite (for_each_state_returned _ _ _ _ Ho) in Ev'.
    rewrite for_each_monotone in Ev'; [done|].
    rewrite Hst, fired_set. by rewrite decide_True.
  - rewrite (for_each_trace_returned _ _ _ _ Ho'), notifications_app, Hn'.
    cbn [app].
    destruct (outcome_cases (outcome_of (event_body now_local event T)))
      as [Hret|[e Hraise]].
    + apply (IH (state_of (event_body now_local event T))).
      intros event_id k. rewrite Hst', fired_ensure, Hsame.
      by rewrite (for_each_state_returned _ _ _ _ Hret).
    + exfalso.
      assert (Heq : verdict_of now_local event (default ∅ (T !! Event.id event))
                    = verdict_of now_local event (default ∅ (T' !! Event.id event))).
      { apply verdict_flags_ext. intros k. rewrite !fired_default, Hsame.
        rewrite (for_each_state_raised _ _ _ _ _ Hraise), Hst.
        rewrite Ho in Hraise.
        destruct (verdict_of now_local event (default ∅ (T !! Event.id event)));
          try done.
        by rewrite fired_ensure. }
      rewrite Heq, Ev' in Ho. by rewrite Ho in Hraise.
  - by rewrite (for_each_trace_raised _ _ _ _ _ Ho').
Qed.

End Steps.

(** ** One event inside its batch *)

Lemma keys_notified_app event_id tr1 tr2 :
  keys_notified event_id (tr1 ++ tr2)
  = keys_notified event_id tr1 ++ keys_notified event_id tr2.
Proof. unfold keys_notified. by rewrite notifications_app, filter_app, fmap_app. Qed.

Lemma elem_of_keys_notified event_id k tr :
  k ∈ keys_notified event_id tr ↔ (event_id, k) ∈ notifications tr.
Proof.
  unfold keys_notified. rewrite list_elem_of_fmap. split.
  - intros ([i k'] & -> & [Hi Hin]%list_elem_of_filter). simpl in *. by subst.
  - intros Hin. exists (event_id, k). split; [done|].
    apply list_elem_of_filter. done.
Qed.

Lemma keys_notified_same_notifications event_id tr1 tr2 :
  notifications tr1 = notifications tr2 →
  keys_notified event_id tr1 = keys_notified event_id tr2.
Proof. unfold keys_notified. by intros ->. Qed.

Lemma keys_notified_nil event_id tr :
  (∀ k, (event_id, k) ∉ notifications tr) → keys_notified event_id tr = [].
Proof.
  intros Hno. destruct (keys_notified event_id tr) as [|k l] eqn:E; [done|].
  exfalso. apply (Hno k), elem_of_keys_notified. rewrite E. apply list_elem_of_here.
Qed.

Section Focus.
Context {lib : DatetimeLib}.

Lemma keys_notified_event_body now_local event T event_id :
  keys_notified event_id (trace_of (event_body now_local event T))
  = if decide (Event.id event = event_id) then
      match verdict_of now_local event (default ∅ (T !! Event.id event)) with
      | Fire k => [k]
      | _ => []
      end
    else [].
Proof.
  unfold keys_notified. rewrite event_body_notifications.
  destruct (verdict_of _ _ _); case_decide; try done.
  - rewrite filter_cons_True by done. done.
  - rewrite filter_cons_False by done. done.
Qed.

(** The body reads and writes the table at the identifier of its event
    only. *)
Lemma event_body_same_entry now_local event T T' :
  T !! Event.id event = T' !! Event.id event →
  outcome_of (event_body now_local event T) = outcome_of (event_body now_local event T')
  ∧ state_of (event_body now_local event T) !! Event.id event
    = state_of (event_body now_local event T') !! Event.id event
  ∧ notifications (trace_of (event_body now_local event T))
    = notifications (trace_of (event_body now_local event T')).
Proof.
  intros Heq.
  rewrite !event_body_outcome, !event_body_state, !event_body_notifications, Heq.
  split_and!; [done| |done].
  by destruct (verdict_of _ _ _); rewrite !lookup_insert_eq.
Qed.

(** What a pass over a batch does for one identifier that occurs once in
    it: when the events before it return, what the body does on the event;
    when one of them raises, nothing. *)
Lemma for_each_focus_returned now_local pre event post T :
  Forall (λ event', Event.id event' ≠ Event.id event) (pre ++ post) →
  outcome_of (for_each pre (event_body now_local) T) = Returned tt →
  let r := for_each (pre ++ event :: post) (event_body now_local) T in
  state_of r !! Event.id event
  = state_of (event_body now_local event T) !! Event.id event
  ∧ keys_notified (Event.id event) (trace_of r)
    = keys_notified (Event.id event) (trace_of (event_body now_local event T))
  ∧ (∀ e, outcome_of (event_body now_local event T) = Raised e →
          outcome_of r = Raised e).
Proof.
  intros [Hpre Hpost]%Forall_app Hret. cbv zeta.
  rewrite (for_each_app_returned _ _ _ _ Hret). cbv zeta.
  rewrite outcome_of_mk, state_of_mk, trace_of_mk.
  set (T1 := state_of (for_each pre (event_body now_local) T)).
  assert (HT1 : T1 !! Event.id event = T !! Event.id event)
    by (by apply for_each_other_entry).
  destruct (event_body_same_entry now_local event T1 T HT1) as (Ho & Hst & Hn).
  rewrite keys_notified_app.
  rewrite (keys_notified_nil _ (trace_of (for_each pre _ T)))
    by (intros k; by apply for_each_other_notifications).
  cbn [app].
  rewrite <- (keys_notified_same_notifications _ _ _ Hn), <- Hst, <- Ho.
  destruct (outcome_cases (outcome_of (event_body now_local event T1)))
    as [Hb|[e Hb]].
  - rewrite (for_each_state_returned _ _ _ _ Hb), (for_each_trace_returned _ _ _ _ Hb).
    rewrite for_each_other_entry by done.
    rewrite keys_notified_app.
    rewrite (keys_notified_nil _ (trace_of (for_each post _ _)))
      by (intros k; by apply for_each_other_notifications).
    rewrite app_nil_r. split_and!; [done..|]. intros e He. by rewrite Hb in He.
  - rewrite (for_each_state_raised _ _ _ _ _ Hb), (for_each_trace_raised _ _ _ _ _ Hb).
    split_and!; [done..|]. intros e' He.
    rewrite (for_each_outcome_raised _ _ _ _ _ Hb). by rewrite Hb in He.
Qed.

Lemma for_each_focus_raised now_local pre event post T e :
  Forall (λ event', Event.id event' ≠ Event.id event) (pre ++ post) →
  outcome_of (for_each pre (event_body now_local) T) = Raised e →
  let r := for_each (pre ++ event :: post) (event_body now_local) T in
  state_of r !! Event.id event = T !! Event.id event
  ∧ keys_notified (Event.id event) (trace_of r) = []
  ∧ outcome_of r = Raised e.
Proof.
  intros [Hpre Hpost]%Forall_app Hraise. cbv zeta.
  rewrite (for_each_app_raised _ _ _ _ _ Hraise).
  split_and!; [by apply for_each_other_entry| |done].
  apply keys_notified_nil. intros k. by apply for_each_other_notifications.
Qed.

End Focus.

(** * The properties of the specification *)

Section Specification.
Context {lib : DatetimeLib}.

(** C1. For every event identifier and every milestone, over any sequence
    of reminder checks, whatever their clock readings and batches, at most
    one notification is emitted for the pair; none is emitted when the
    flag of the pair is set at the beginning; and a flag that is set in
    the table stays set through all later checks. *)
Theorem at_most_once_per_milestone (polls : list (Z * list Event.t))
    (T : Reminders) (event_id : string) (k : key) :
  let r := run_polls polls T in
  (sent_count event_id k r.2 ≤ 1)%nat
  ∧ (fired T event_id k = true →
     sent_count event_id k r.2 = 0%nat ∧ fired r.1 event_id k = true)
  ∧ (sent_count event_id k r.2 = 1%nat → fired r.1 event_id k = true).
Proof.
  intros r. pose proof (run_polls_accounting polls T event_id k) as H.
  cbv zeta in H. fold r in H.
  destruct (fired T event_id k), (fired r.1 event_id k); simpl in H;
    split_and!; try done; try lia; intros; split; try done; lia.
Qed.

(** C3. Take a check whose batch holds a timed event, under an identifier
    that no other event of the batch carries, with a start that parses
    and converts.  The check emits the started notification of the event
    exactly when the events before it in the batch are processed without
    an exception, -5min < time_to_event <= 0, and the started flag is not
    set.  When it is emitted, the started flag is set after the check and
    it is the only notification of the event in the check.  Whenever
    -5min < time_to_event <= 0, the check emits no threshold reminder for
    the event and changes no threshold flag of it. *)
Theorem started_window (now_local : Z) (pre post : list Event.t) (event : Event.t)
    (T : Reminders) (dateTime : string) (t : Z) :
  Event.start event = StartDateTime dateTime →
  local_start dateTime = Some t →
  Forall (λ event', Event.id event' ≠ Event.id event) (pre ++ post) →
  let time_to_event := t - now_local in
  let event_id := Event.id event in
  let r := check_and_remind now_local (pre ++ event :: post) T in
  ((event_id, k_started) ∈ notifications (trace_of r) ↔
     outcome_of (check_and_remind now_local pre T) = Returned tt
     ∧ (timedelta_minutes (-5) < time_to_event ≤ timedelta_seconds 0)
     ∧ fired T event_id k_started = false)
  ∧ ((event_id, k_started) ∈ notifications (trace_of r) →
       fired (state_of r) event_id k_started = true
       ∧ keys_notified event_id (trace_of r) = [k_started])
  ∧ ((timedelta_minutes (-5) < time_to_event ≤ timedelta_seconds 0) →
     ∀ m, ((event_id, k_threshold m) ∉ notifications (trace_of r))
          ∧ fired (state_of r) event_id (k_threshold m)
            = fired T event_id (k_threshold m)).
Proof.
  intros Hs Hp Huniq tte event_id r.
  assert (Hkeys : ∀ k, (event_id, k) ∈ notifications (trace_of r) ↔
                       k ∈ keys_notified event_id
                             (trace_of (for_each (pre ++ event :: post)
                                          (event_body now_local) T))).
  { intros k. subst r. rewrite check_and_remind_notifications.
    by rewrite elem_of_keys_notified. }
  assert (Hkn : keys_notified event_id (trace_of r)
                = keys_notified event_id
                    (trace_of (for_each (pre ++ event :: post)
                                 (event_body now_local) T))).
  { apply keys_notified_same_notifications. subst r.
    apply check_and_remind_notifications. }
  assert (Hfired : ∀ k, fired (state_of r) event_id k
                        = fired (state_of (for_each (pre ++ event :: post)
                                             (event_body now_local) T)) event_id k).
  { intros k. subst r. by rewrite check_and_remind_state. }
  rewrite check_and_remind_outcome.
  pose proof (keys_notified_event_body now_local event T event_id) as Hbody.
  rewrite decide_True in Hbody by done.
  pose proof (event_body_state now_local event T) as Hst.
  rewrite (verdict_of_timed _ _ _ _ _ Hs Hp) in Hbody, Hst.
  fold event_id tte in Hbody, Hst.
  pose proof (timed_verdict_fire_started t tte (default ∅ (T !! event_id))) as Hfs.
  rewrite fired_default in Hfs.
  destruct (outcome_cases (outcome_of (for_each pre (event_body now_local) T)))
    as [Hret|[e Hraise]].
  - destruct (for_each_focus_returned now_local pre event post T Huniq Hret)
      as (Hentry & Hk & _).
    fold event_id in Hentry, Hk. rewrite Hk, Hbody in Hkeys, Hkn.
    assert (Hfb : ∀ k, fired (state_of r) event_id k
                       = fired (state_of (event_body now_local event T)) event_id k).
    { intros k. rewrite Hfired. by apply fired_same_entry. }
    split_and!.
    + rewrite Hkeys, <- Hfs.
      destruct (timed_verdict _ _ _) as [k| |]; rewrite ?elem_of_nil,
        ?list_elem_of_singleton; split; try done; try (by intros (_ & ?));
        try (intros ->; by split); intros (_ & [= ->]); done.
    + rewrite Hkeys, Hkn, Hfb, Hst.
      destruct (timed_verdict _ _ _) as [k| |]; [|by intros ?%elem_of_nil..].
      intros <-%list_elem_of_singleton. split; [|done].
      rewrite fired_set. by rewrite decide_True.
    + intros Hwin m.
      pose proof (timed_verdict_started t tte (default ∅ (T !! event_id))
                    ltac:(unfold timedelta_seconds in Hwin; lia)) as [Hno _].
      rewrite Hkeys, Hfb, Hst.
      destruct (timed_verdict _ _ _) as [k| |].
      * split.
        -- intros <-%list_elem_of_singleton. by apply (Hno m).
        -- rewrite fired_set. rewrite decide_False; [done|].
           intros [_ <-]. by apply (Hno m).
      * split; [apply not_elem_of_nil|apply fired_ensure].
      * split; [apply not_elem_of_nil|apply fired_ensure].
  - destruct (for_each_focus_raised now_local pre event post T e Huniq Hraise)
      as (Hentry & Hk & _).
    fold event_id in Hentry, Hk. rewrite Hk in Hkeys, Hkn.
    assert (Hfb : ∀ k, fired (state_of r) event_id k = fired T event_id k).
    { intros k. rewrite Hfired. by apply fired_same_entry. }
    split_and!.
    + rewrite Hkeys, elem_of_nil, Hraise. split; [done|]. by intros [? _].
    + rewrite Hkeys. by intros ?%elem_of_nil.
    + intros _ m. rewrite Hkeys, Hfb. split; [apply not_elem_of_nil|done].
Qed.

(** C4 (amended). A timed event whose start is accepted by neither format
    is logged and skipped: the body returns normally, no notification is
    emitted, no flag of any identifier changes, and the table is the one
    before except that an identifier seen for the first time has received
    its empty entry. *)
Theorem unparseable_start_skipped (now_local : Z) (event : Event.t) (T : Reminders)
    (dateTime : string) :
  Event.start event = StartDateTime dateTime →
  parsed_start dateTime = None →
  let r := event_body now_local event T in
  outcome_of r = Returned tt
  ∧ notifications (trace_of r) = []
  ∧ Log ERROR ("Failed to parse event start time for " +:+
               default "No Title" (Event.summary event) +:+ ": " +:+ dateTime)
    ∈ trace_of r
  ∧ (∀ event_id k, fired (state_of r) event_id k = fired T event_id k)
  ∧ state_of r = match T !! Event.id event with
                 | Some _ => T
                 | None => <[Event.id event := ∅]> T
                 end.
Proof.
  intros Hs Hp r.
  pose proof (event_body_notifications now_local event T) as Hn.
  pose proof (event_body_state now_local event T) as Hst.
  pose proof (event_body_outcome now_local event T) as Ho.
  unfold verdict_of in Hn, Hst, Ho. rewrite Hs, Hp in Hn, Hst, Ho.
  fold r in Hn, Hst, Ho.
  split_and!; [done|done| | |].
  - subst r. unfold event_body. rewrite ensure_entry_run, Hs.
    unfold bind. rewrite parse_start_time_run, Hp. unfold trace_of. simpl.
    rewrite app_nil_r. unfold parse_logs. unfold parsed_start in Hp.
    destruct (fromisoformat _); [done|]. rewrite Hp.
    apply list_elem_of_further, list_elem_of_here.
  - intros event_id k. rewrite Hst. apply fired_ensure.
  - rewrite Hst. destruct (T !! Event.id event) eqn:E; [|done].
    by apply insert_id.
Qed.

(** C10. A timed event whose start parses, converts and lies five minutes
    or more in the past gets no notification of any kind and no flag; the
    only change of the table is the empty entry of an identifier seen for
    the first time. *)
Theorem long_past_event_ignored (now_local : Z) (event : Event.t) (T : Reminders)
    (dateTime : string) (t : Z) :
  Event.start event = StartDateTime dateTime →
  local_start dateTime = Some t →
  t - now_local ≤ timedelta_minutes (-5) →
  let r := event_body now_local event T in
  outcome_of r = Returned tt
  ∧ notifications (trace_of r) = []
  ∧ (∀ event_id k, fired (state_of r) event_id k = fired T event_id k)
  ∧ state_of r = match T !! Event.id event with
                 | Some _ => T
                 | None => <[Event.id event := ∅]> T
                 end.
Proof.
  intros Hs Hp Hle r.
  pose proof (event_body_notifications now_local event T) as Hn.
  pose proof (event_body_state now_local event T) as Hst.
  pose proof (event_body_outcome now_local event T) as Ho.
  rewrite (verdict_of_timed _ _ _ _ _ Hs Hp) in Hn, Hst, Ho.
  fold r in Hn, Hst, Ho.
  assert (Hv : timed_verdict t (t - now_local) (default ∅ (T !! Event.id event)) = Skip).
  { unfold timedelta_minutes in Hle.
    pose proof (timed_verdict_started t (t - now_local)
                  (default ∅ (T !! Event.id event)) ltac:(lia)) as [Hno Hnf].
    destruct (timed_verdict _ _ _) as [k| |e] eqn:E; [|done|by destruct (Hnf e)].
    destruct (timed_verdict_fire_cases _ _ _ _ E) as [->|[m ->]].
    - apply timed_verdict_fire_started in E as [[? _] _].
      unfold timedelta_minutes in *. lia.
    - by destruct (Hno m). }
  rewrite Hv in Hn, Hst, Ho. split_and!; [done|done| |].
  - intros event_id k. rewrite Hst. apply fired_ensure.
  - rewrite Hst. destruct (T !! Event.id event) eqn:E; [|done].
    by apply insert_id.
Qed.

(** C6. Let a check at clock reading now0 find time_to_event <= 0 for a
    timed event.  First, whatever the library does: over every sequence of
    checks at readings from now0 on (the observing check included) whose
    batches carry, under the identifier of the event, records with this
    start, no threshold reminder is emitted for the identifier and no
    threshold flag of it changes, whatever flags are set, so also when no
    threshold was ever caught.  Second, with [tzname] raising from an
    instant t0 on, as the zone object of pytz does: over every sequence of
    checks at readings from t0 on, whatever their batches, also when they
    carry the event with another start, no threshold reminder is emitted
    for the identifier. *)
Theorem started_suppresses_thresholds (event : Event.t) (dateTime : string)
    (t now0 : Z) :
  Event.start event = StartDateTime dateTime →
  local_start dateTime = Some t →
  t - now0 ≤ timedelta_seconds 0 →
  (∀ (polls : list (Z * list Event.t)) (T : Reminders),
     Forall (λ p : Z * list Event.t,
               now0 ≤ p.1
               ∧ Forall (λ event', Event.id event' = Event.id event →
                                   Event.start event' = Event.start event) p.2)
            polls →
     ∀ m, ((Event.id event, k_threshold m) ∉ notifications (run_polls polls T).2)
          ∧ fired (run_polls polls T).1 (Event.id event) (k_threshold m)
            = fired T (Event.id event) (k_threshold m))
  ∧ (∀ (t0 : Z) (polls : list (Z * list Event.t)) (T : Reminders),
       (∀ t', t0 ≤ t' → tzname t' = None) →
       Forall (λ p : Z * list Event.t, t0 ≤ p.1) polls →
       ∀ m, (Event.id event, k_threshold m) ∉ notifications (run_polls polls T).2).
Proof.
  intros Hs Hp Hle. unfold timedelta_seconds in Hle. split.
  - intros polls T Hall m.
    assert (Hno : (Event.id event, k_threshold m)
                  ∉ notifications (run_polls polls T).2).
    { intros Hin.
      apply run_polls_notification_origin
        in Hin as (now_local & events & event' & T' & Hpoll & Hev & Hid & Hv).
      rewrite Forall_forall in Hall. destruct (Hall _ Hpoll) as [Hnow Hevents].
      rewrite Forall_forall in Hevents. cbn [fst snd] in *.
      specialize (Hevents _ Hev Hid). rewrite Hs in Hevents.
      rewrite (verdict_of_timed _ _ _ _ _ Hevents Hp) in Hv.
      apply timed_verdict_fire_threshold in Hv. lia. }
    split; [done|]. by apply run_polls_flag_unchanged.
  - intros t0 polls T Hraises Hall m Hin.
    apply run_polls_notification_origin
      in Hin as (now_local & events & event' & T' & Hpoll & Hev & Hid & Hv).
    rewrite Forall_forall in Hall. specialize (Hall _ Hpoll). cbn [fst] in Hall.
    destruct (verdict_of_timed_inv _ _ _ _ Hv ltac:(done))
      as [(dateTime' & t' & Hs' & Hp' & Ht)|[(? & ? & _ & _ & _ & [=])|[s Hs']]].
    + apply timed_verdict_fire_threshold in Ht as (_ & _ & Hpos & _ & [zn Hzn]).
      rewrite Hraises in Hzn; [done|lia].
    + revert Hv. unfold verdict_of. rewrite Hs'.
      destruct (strptime_date s); [|done]. by destruct (_ && _).
Qed.

(** C7. A reminder check that is repeated at once, with the same batch
    and the same clock reading, on the table the first check left, emits
    no notification. *)
Theorem idempotent_repoll (now_local : Z) (events : list Event.t) (T : Reminders) :
  notifications
    (trace_of (check_and_remind now_local events
                 (state_of (check_and_remind now_local events T)))) = [].
Proof.
  rewrite check_and_remind_notifications, check_and_remind_state.
  by apply (for_each_rerun now_local events T).
Qed.

(** C8. For an all-day event whose date string is a date: the all-day
    notification is emitted exactly when that date is the local date of
    the clock reading and the all_day_today flag is not set; the flag is
    then set; no other notification is emitted for the event and no other
    flag changes, so nothing of the timed logic applies.  Over any number
    of checks, if the flag is not set at the beginning and in some check
    of that day the batch holds the event and the events before it in the
    batch are processed without an exception, exactly one all-day
    notification is emitted for it, whatever the other checks are. *)
Theorem all_day_notification (event : Event.t) (s : string) (event_date : date) :
  Event.start event = StartDate s →
  strptime_date s = Some event_date →
  let event_id := Event.id event in
  (∀ (now_local : Z) (T : Reminders),
     let r := event_body now_local event T in
     ((event_id, k_all_day_today) ∈ notifications (trace_of r) ↔
        event_date = local_date now_local
        ∧ fired T event_id k_all_day_today = false)
     ∧ ((event_id, k_all_day_today) ∈ notifications (trace_of r) →
          fired (state_of r) event_id k_all_day_today = true)
     ∧ (∀ k, k ≠ k_all_day_today →
          ((event_id, k) ∉ notifications (trace_of r))
          ∧ fired (state_of r) event_id k = fired T event_id k)
     ∧ (length (notifications (trace_of r)) ≤ 1)%nat)
  ∧ (∀ (before after : list (Z * list Event.t)) (now_local : Z)
       (pre post : list Event.t) (T : Reminders),
       fired T event_id k_all_day_today = false →
       local_date now_local = event_date →
       outcome_of (check_and_remind now_local pre (run_polls before T).1)
       = Returned tt →
       sent_count event_id k_all_day_today
         (run_polls (before ++ (now_local, pre ++ event :: post) :: after) T).2
       = 1%nat).
Proof.
  intros Hs Hd event_id. split.
  - intros now_local T r.
    pose proof (event_body_notifications now_local event T) as Hn.
    pose proof (event_body_state now_local event T) as Hst.
    unfold verdict_of in Hn, Hst. rewrite Hs, Hd in Hn, Hst.
    fold r event_id in Hn, Hst. rewrite fired_default in Hn, Hst.
    rewrite Hn, Hst. clear Hn Hst.
    destruct (bool_decide (event_date = local_date now_local)) eqn:Eb;
      [apply bool_decide_eq_true in Eb|apply bool_decide_eq_false in Eb];
      (destruct (fired T event_id k_all_day_today) eqn:Ef); simpl.
    all: split_and!;
      try (rewrite ?list_elem_of_singleton, ?elem_of_nil; split;
           [intros ?; try done|intros [? ?]; try done]);
      try (by intros ?%elem_of_nil);
      try (intros k Hk; split;
           [rewrite ?list_elem_of_singleton, ?elem_of_nil; congruence|]);
      try apply fired_ensure; try lia.
    + intros _. rewrite fired_set. by rewrite decide_True.
    + rewrite fired_set. by rewrite decide_False by (by intros [_ ?]).
  - intros before after now_local pre post T Hf Hdate Hret. subst event_id.
    pose proof (run_polls_accounting
                  (before ++ (now_local, pre ++ event :: post) :: after) T
                  (Event.id event) k_all_day_today) as Ha.
    cbv zeta in Ha. rewrite Hf in Ha.
    assert (Hfinal : fired (run_polls (before ++ (now_local, pre ++ event :: post)
                                         :: after) T).1
                       (Event.id event) k_all_day_today = true).
    { rewrite run_polls_app. cbn [fst run_polls]. cbv zeta. cbn [fst].
      apply run_polls_monotone.
      set (T0 := (run_polls before T).1) in *.
      rewrite check_and_remind_state. rewrite check_and_remind_outcome in Hret.
      rewrite (for_each_app_returned _ _ _ _ Hret). cbv zeta.
      rewrite state_of_mk.
      set (T1 := state_of (for_each pre (event_body now_local) T0)).
      assert (Hb : outcome_of (event_body now_local event T1) = Returned tt).
      { rewrite event_body_outcome. unfold verdict_of. rewrite Hs, Hd.
        by destruct (_ && _). }
      rewrite (for_each_state_returned _ _ _ _ Hb). apply for_each_monotone.
      rewrite event_body_state. unfold verdict_of. rewrite Hs, Hd, Hdate.
      rewrite bool_decide_eq_true_2 by done. cbn [andb].
      destruct (default false _) eqn:E; cbn [negb].
      - rewrite fired_ensure, <- fired_default. done.
      - rewrite fired_set. by rewrite decide_True. }
    rewrite Hfinal in Ha. simpl in Ha. lia.
Qed.

End Specification.

(** * Further properties of the engine *)

Section Passes.
Context {lib : DatetimeLib}.

Lemma verdict_fire_key now_local event d k :
  verdict_of now_local event d = Fire k → k ∈ milestone_keys.
Proof.
  intros Hv.
  destruct (verdict_of_timed_inv _ _ _ _ Hv ltac:(done))
    as [(dateTime & t & Hs & Hp & Ht)|[(? & ? & _ & _ & _ & [=])|[s Hs]]].
  - destruct (timed_verdict_fire_cases _ _ _ _ Ht) as [->|[m ->]].
    + unfold milestone_keys. apply elem_of_app. right. apply list_elem_of_here.
    + apply timed_verdict_fire_threshold in Ht as (Hm & _).
      unfold milestone_keys. apply elem_of_app. left.
      rewrite sorted_reverse_thresholds. by apply list_elem_of_fmap_2.
  - revert Hv. unfold verdict_of. rewrite Hs.
    destruct (strptime_date s); [|done].
    destruct (_ && _); [|done]. intros [= <-].
    unfold milestone_keys. apply elem_of_app. right.
    apply list_elem_of_further, list_elem_of_here.
Qed.

(** X1. Events never touch the entry of another identifier: through any
    sequence of checks whose batches hold no event of a given identifier,
    the entry of that identifier (present or absent) stays as it is and no
    notification is emitted for it. *)
Theorem other_identifiers_untouched (polls : list (Z * list Event.t))
    (T : Reminders) (event_id : string) :
  Forall (λ p : Z * list Event.t,
            Forall (λ event, Event.id event ≠ event_id) p.2) polls →
  (run_polls polls T).1 !! event_id = T !! event_id
  ∧ ∀ k, (event_id, k) ∉ notifications (run_polls polls T).2.
Proof.
  intros Hall. split.
  - revert T. induction Hall as [|[now_local events] polls Hp Hall IH]; intros T;
      [done|].
    cbn [run_polls]. cbv zeta. cbn [fst snd]. rewrite IH.
    destruct (check_and_remind_for_each now_local events T) as (_ & -> & _).
    by apply for_each_other_entry.
  - intros k Hin.
    apply run_polls_notification_origin
      in Hin as (now_local & events & event & T' & Hpoll & Hev & Hid & _).
    rewrite Forall_forall in Hall. specialize (Hall _ Hpoll). simpl in Hall.
    rewrite Forall_forall in Hall. by apply (Hall _ Hev).
Qed.

(** ** The identifiers of the table *)

Lemma event_body_dom now_local event T :
  dom (state_of (event_body now_local event T)) = dom T ∪ {[Event.id event]}.
Proof.
  rewrite event_body_state.
  destruct (verdict_of _ _ _); rewrite dom_insert_L; set_solver.
Qed.

Lemma for_each_dom now_local events T :
  let r := for_each events (event_body now_local) T in
  dom T ⊆ dom (state_of r)
  ∧ dom (state_of r) ⊆ dom T ∪ list_to_set (Event.id <$> events)
  ∧ (outcome_of r = Returned tt →
     dom (state_of r) = dom T ∪ list_to_set (Event.id <$> events)).
Proof.
  revert T. induction events as [|event events IH]; intros T.
  - cbv zeta. unfold state_of. simpl. set_solver.
  - pose proof (event_body_dom now_local event T) as Hd.
    destruct (outcome_cases (outcome_of (event_body now_local event T)))
      as [Ho|[e Ho]].
    + cbv zeta. rewrite (for_each_state_returned _ _ _ _ Ho).
      rewrite (for_each_outcome_returned _ _ _ _ Ho).
      destruct (IH (state_of (event_body now_local event T))) as (H1 & H2 & H3).
      rewrite Hd in H1, H2, H3. rewrite fmap_cons, list_to_set_cons.
      split_and!; [set_solver|set_solver|].
      intros Hret. rewrite (H3 Hret). set_solver.
    + cbv zeta. rewrite (for_each_state_raised _ _ _ _ _ Ho).
      rewrite (for_each_outcome_raised _ _ _ _ _ Ho).
      rewrite Hd, fmap_cons, list_to_set_cons.
      split_and!; [set_solver|set_solver|done].
Qed.

(** X2. The table has no eviction: a check removes no identifier and adds
    only identifiers of its batch; when the check returns, the identifiers
    after it are exactly those before together with those of the batch,
    notified or not (a check that raises has added the identifiers up to
    the event at which it stopped).  Over a sequence of checks no
    identifier is ever lost. *)
Theorem table_only_grows (now_local : Z) (events : list Event.t) (T : Reminders)
    (polls : list (Z * list Event.t)) :
  let r := check_and_remind now_local events T in
  dom T ⊆ dom (state_of r)
  ∧ dom (state_of r) ⊆ dom T ∪ list_to_set (Event.id <$> events)
  ∧ (outcome_of r = Returned tt →
     dom (state_of r) = dom T ∪ list_to_set (Event.id <$> events))
  ∧ dom T ⊆ dom (run_polls polls T).1.
Proof.
  cbv zeta.
  destruct (check_and_remind_for_each now_local events T) as (-> & -> & _).
  destruct (for_each_dom now_local events T) as (H1 & H2 & H3).
  split_and!; [done..|].
  clear. revert T. induction polls as [|[n evs] polls IH]; intros T; [done|].
  cbn [run_polls]. cbv zeta. cbn [fst snd]. etrans; [|apply IH].
  destruct (check_and_remind_for_each n evs T) as (_ & -> & _).
  apply for_each_dom.
Qed.

(** ** The flags of the table *)

Lemma event_body_well_formed now_local event T :
  flags_well_formed T → flags_well_formed (state_of (event_body now_local event T)).
Proof.
  intros Hwf. rewrite event_body_state.
  assert (Hd : ∀ k b, default ∅ (T !! Event.id event) !! k = Some b →
                      b = true ∧ k ∈ milestone_keys).
  { intros k b. destruct (T !! Event.id event) as [d|] eqn:E; simpl; [|done].
    by apply (Hwf _ _ _ _ E). }
  destruct (verdict_of _ _ _) as [k0| |] eqn:Ev; intros i d k b.
  - destruct (decide (Event.id event = i)) as [<-|Hne].
    + rewrite lookup_insert_eq. intros [= <-].
      destruct (decide (k0 = k)) as [<-|Hk].
      * rewrite lookup_insert_eq. intros [= <-]. split; [done|].
        by eapply verdict_fire_key.
      * rewrite lookup_insert_ne by done. apply Hd.
    + rewrite lookup_insert_ne by done. apply Hwf.
  - destruct (decide (Event.id event = i)) as [<-|Hne].
    + rewrite lookup_insert_eq. intros [= <-]. apply Hd.
    + rewrite lookup_insert_ne by done. apply Hwf.
  - destruct (decide (Event.id event = i)) as [<-|Hne].
    + rewrite lookup_insert_eq. intros [= <-]. apply Hd.
    + rewrite lookup_insert_ne by done. apply Hwf.
Qed.

Lemma for_each_well_formed now_local events T :
  flags_well_formed T →
  flags_well_formed (state_of (for_each events (event_body now_local) T)).
Proof.
  revert T. induction events as [|event events IH]; intros T Hwf; [done|].
  destruct (outcome_cases (outcome_of (event_body now_local event T)))
    as [Ho|[e Ho]].
  - rewrite (for_each_state_returned _ _ _ _ Ho).
    by apply IH, event_body_well_formed.
  - rewrite (for_each_state_raised _ _ _ _ _ Ho). by apply event_body_well_formed.
Qed.

(** X3. The engine stores nothing but [True], and only under the five
    milestone keys 15, 5, 1, 'started' and 'all_day_today': a table of that
    shape, the empty table of a fresh process among them, keeps that shape
    through every sequence of checks, so an entry never holds more than
    five flags and a stored flag always reads as set. *)
Theorem table_keeps_its_shape (polls : list (Z * list Event.t)) (T : Reminders) :
  flags_well_formed T →
  flags_well_formed (run_polls polls T).1
  ∧ ∀ event_id d, (run_polls polls T).1 !! event_id = Some d →
      (size d ≤ 5)%nat
      ∧ ∀ k, fired (run_polls polls T).1 event_id k = true ↔ is_Some (d !! k).
Proof.
  intros Hwf.
  assert (Hfin : flags_well_formed (run_polls polls T).1).
  { revert T Hwf. induction polls as [|[n evs] polls IH]; intros T Hwf; [done|].
    cbn [run_polls]. cbv zeta. cbn [fst snd]. apply IH.
    destruct (check_and_remind_for_each n evs T) as (_ & -> & _).
    by apply for_each_well_formed. }
  split; [done|]. intros event_id d Hd. split.
  - assert (Hsub : dom d ⊆ list_to_set (C := gset (string + Z)) milestone_keys).
    { intros k [b Hb]%elem_of_dom. apply elem_of_list_to_set.
      by apply (Hfin _ _ _ _ Hd Hb). }
    apply subseteq_size in Hsub. rewrite size_dom in Hsub.
    etrans; [exact Hsub|]. vm_compute. lia.
  - intros k. unfold fired. rewrite Hd. split.
    + destruct (d !! k); [by eexists|done].
    + intros [b Hb]. rewrite Hb. simpl. by apply (Hfin _ _ _ _ Hd Hb).
Qed.

(** ** Exceptions *)



Lemma for_each_stops_at_bad_date now_local pre bad post T s :
  Event.start bad = StartDate s → strptime_date s = None →
  for_each (pre ++ bad :: post) (event_body now_local) T
  = for_each (pre ++ [bad]) (event_body now_local) T
  ∧ notifications (trace_of (for_each (pre ++ [bad]) (event_body now_local) T))
    = notifications (trace_of (for_each pre (event_body now_local) T)).
Proof.
  intros Hs Hd.
  assert (Hbad : ∀ T', outcome_of (event_body now_local bad T') = Raised ValueError
                       ∧ notifications (trace_of (event_body now_local bad T')) = []).
  { intros T'. rewrite event_body_outcome, event_body_notifications.
    unfold verdict_of. by rewrite Hs, Hd. }
  revert T. induction pre as [|event pre IH]; intros T.
  - cbn [app]. destruct (Hbad T) as [Ho Hn].
    rewrite !(for_each_cons_raised _ _ _ _ _ Ho). split; [done|].
    by rewrite trace_of_mk.
  - rewrite <- !app_comm_cons.
    destruct (outcome_cases (outcome_of (event_body now_local event T)))
      as [Ho|[e Ho]].
    + rewrite !(for_each_cons_returned _ _ _ _ Ho). cbv zeta.
      destruct (IH (state_of (event_body now_local event T))) as [-> Hn].
      split; [done|]. rewrite !trace_of_mk.
      by rewrite !notifications_app, Hn.
    + by rewrite !(for_each_cons_raised _ _ _ _ _ Ho).
Qed.

(** X5. One all-day event with an unreadable date cuts the check short:
    the events after it in the batch are never looked at (the check does
    exactly what it does on the batch that ends with the bad event), and
    the notifications sent are those of the events before it. *)
Theorem events_after_bad_date_skipped (now_local : Z) (pre post : list Event.t)
    (bad : Event.t) (T : Reminders) (s : string) :
  Event.start bad = StartDate s →
  strptime_date s = None →
  check_and_remind now_local (pre ++ bad :: post) T
  = check_and_remind now_local (pre ++ [bad]) T
  ∧ notifications (trace_of (check_and_remind now_local (pre ++ bad :: post) T))
    = notifications (trace_of (check_and_remind now_local pre T)).
Proof.
  intros Hs Hd.
  destruct (for_each_stops_at_bad_date now_local pre bad post T s Hs Hd) as [Heq Hn].
  split.
  - rewrite !check_and_remind_nonempty by (by destruct pre).
    cbv zeta. by rewrite Heq.
  - destruct (check_and_remind_for_each now_local (pre ++ bad :: post) T)
      as (_ & _ & ->).
    destruct (check_and_remind_for_each now_local pre T) as (_ & _ & ->).
    by rewrite Heq.
Qed.

(** ** One notification per event *)

(** X6. A check sends at most one notification per event of its batch,
    whatever the kind, and sends them in the order of the batch: the
    identifiers notified form a sublist of the identifiers of the batch. *)
Theorem one_notification_per_event (now_local : Z) (events : list Event.t)
    (T : Reminders) :
  let sent := notifications (trace_of (check_and_remind now_local events T)) in
  sent.*1 `sublist_of` (Event.id <$> events)
  ∧ (length sent ≤ length events)%nat.
Proof.
  cbv zeta. destruct (check_and_remind_for_each now_local events T) as (_ & _ & ->).
  assert (H : (notifications (trace_of (for_each events (event_body now_local) T))).*1
              `sublist_of` (Event.id <$> events)).
  { revert T. induction events as [|event events IH]; intros T; [done|].
    pose proof (event_body_notifications now_local event T) as Hn.
    destruct (outcome_cases (outcome_of (event_body now_local event T)))
      as [Ho|[e Ho]].
    - rewrite (for_each_trace_returned _ _ _ _ Ho), notifications_app, Hn, fmap_app.
      specialize (IH (state_of (event_body now_local event T))).
      destruct (verdict_of _ _ _); simpl.
      + by apply sublist_skip.
      + by apply sublist_cons.
      + by apply sublist_cons.
    - rewrite (for_each_trace_raised _ _ _ _ _ Ho), Hn.
      destruct (verdict_of _ _ _); simpl.
      + apply sublist_skip, sublist_nil_l.
      + apply sublist_nil_l.
      + apply sublist_nil_l. }
  split; [done|]. apply sublist_length in H. by rewrite !length_fmap in H.
Qed.

(** ** The defect of line 191 in general *)

(** X17. A due threshold aborts the check.  Take a timed event whose
    start parses and converts, a threshold of the engine whose window
    holds the remaining time and whose flag is not set, and a library
    whose [tzname] raises for the start, as the zone object of pytz does.
    If the events before it in the batch, all of other identifiers, are
    processed without an exception, the check raises [ValueError]; it
    sends for the batch what it sends for the events before this one, so
    nothing for this event and nothing for the events after it; no flag of
    the event changes; and the check does exactly what it does on the
    batch that ends with this event. *)
Theorem due_threshold_aborts_check (now_local : Z) (pre post : list Event.t)
    (event : Event.t) (T : Reminders) (dateTime : string) (t m : Z) :
  Event.start event = StartDateTime dateTime →
  local_start dateTime = Some t →
  m ∈ reminder_thresholds →
  timedelta_seconds (-10) ≤ t - now_local - timedelta_minutes m
    < timedelta_minutes 1 →
  fired T (Event.id event) (k_threshold m) = false →
  tzname t = None →
  Forall (λ event', Event.id event' ≠ Event.id event) pre →
  outcome_of (check_and_remind now_local pre T) = Returned tt →
  let r := check_and_remind now_local (pre ++ event :: post) T in
  outcome_of r = Raised ValueError
  ∧ notifications (trace_of r)
    = notifications (trace_of (check_and_remind now_local pre T))
  ∧ (∀ k, fired (state_of r) (Event.id event) k = fired T (Event.id event) k)
  ∧ r = check_and_remind now_local (pre ++ [event]) T.
Proof.
  intros Hs Hp Hm Hw Hu Hz Hpre Hret. cbv zeta.
  rewrite check_and_remind_outcome in Hret.
  set (T1 := state_of (for_each pre (event_body now_local) T)).
  assert (HT1 : T1 !! Event.id event = T !! Event.id event)
    by (by apply for_each_other_entry).
  assert (Hv : verdict_of now_local event (default ∅ (T1 !! Event.id event))
               = Fail ValueError).
  { rewrite (verdict_of_timed _ _ _ _ _ Hs Hp). apply timed_verdict_fail.
    split_and!; [done..|]. exists m. rewrite HT1, fired_default.
    split_and!; [done|by apply in_window_iff| |done].
    unfold timedelta_seconds, timedelta_minutes, reminder_thresholds in *.
    rewrite !elem_of_cons, elem_of_nil in Hm. lia. }
  assert (Hb : outcome_of (event_body now_local event T1) = Raised ValueError)
    by (by rewrite event_body_outcome, Hv).
  assert (Hcut : ∀ rest, for_each (pre ++ event :: rest) (event_body now_local) T
                 = (Raised ValueError, state_of (event_body now_local event T1),
                    trace_of (for_each pre (event_body now_local) T)
                    ++ trace_of (event_body now_local event T1))).
  { intros rest. rewrite (for_each_app_returned _ _ _ _ Hret). cbv zeta.
    fold T1. by rewrite (for_each_cons_raised _ _ _ _ _ Hb). }
  split_and!.
  - by rewrite check_and_remind_outcome, Hcut.
  - rewrite !check_and_remind_notifications, Hcut, trace_of_mk, notifications_app.
    rewrite event_body_notifications, Hv. by rewrite app_nil_r.
  - intros k. rewrite check_and_remind_state, Hcut, state_of_mk.
    rewrite event_body_state, Hv, fired_ensure. by apply fired_same_entry.
  - rewrite !check_and_remind_nonempty by (by destruct pre).
    cbv zeta. by rewrite !Hcut.
Qed.

End Passes.

(** * Reminders along the clock *)

Lemma gaps_reach_window (w L : Z) (nows : list Z) (first lst : Z) :
  gaps_at_most w nows →
  head nows = Some first → last nows = Some lst →
  first ≤ L + w → L < lst →
  Exists (λ n, L < n ≤ L + w) nows.
Proof.
  revert first. induction nows as [|a nows IH]; intros first Hg Hh Hl Hf Hlst; [done|].
  injection Hh as ->.
  destruct (Z.lt_ge_cases L first) as [Hin|Hout].
  - apply Exists_cons_hd. lia.
  - destruct nows as [|b nows].
    + injection Hl as ->. lia.
    + destruct Hg as [Hab Hg]. apply Exists_cons_tl.
      apply (IH b); [done|done|done|lia|done].
Qed.

Lemma polls_reach_window (w L : Z) (polls : list (Z * list Event.t))
    (first lst : Z) (P : Z * list Event.t → Prop) :
  gaps_at_most w polls.*1 →
  head polls.*1 = Some first → last polls.*1 = Some lst →
  first ≤ L + w → L < lst →
  Forall P polls →
  Exists (λ p, (L < p.1 ≤ L + w) ∧ P p) polls.
Proof.
  intros Hg Hh Hl Hf Hlst Hall.
  pose proof (gaps_reach_window w L _ first lst Hg Hh Hl Hf Hlst) as Hex.
  apply Exists_exists in Hex as (n & Hin & Hn).
  apply list_elem_of_fmap in Hin as (p & -> & Hp).
  apply Exists_exists. exists p. split; [done|]. split; [done|].
  rewrite Forall_forall in Hall. by apply Hall.
Qed.

Section Cadences.
Context {lib : DatetimeLib}.

(** A loop that returns has run the body on every event of the batch. *)
Lemma for_each_marks now_local events T event k :
  event ∈ events →
  outcome_of (for_each events (event_body now_local) T) = Returned tt →
  (∀ T', fired (state_of (event_body now_local event T')) (Event.id event) k = true) →
  fired (state_of (for_each events (event_body now_local) T)) (Event.id event) k = true.
Proof.
  intros Hin Hret Hmark. revert T Hin Hret.
  induction events as [|event0 events IH]; intros T Hin Hret;
    [by apply elem_of_nil in Hin|].
  destruct (outcome_cases (outcome_of (event_body now_local event0 T)))
    as [Ho|[e Ho]].
  - rewrite (for_each_outcome_returned _ _ _ _ Ho) in Hret.
    rewrite (for_each_state_returned _ _ _ _ Ho).
    apply elem_of_cons in Hin as [->|Hin].
    + apply for_each_monotone, Hmark.
    + by apply IH.
  - by rewrite (for_each_outcome_raised _ _ _ _ _ Ho) in Hret.
Qed.

Lemma run_polls_marks polls T event k :
  checks_return polls T →
  Exists (λ p : Z * list Event.t,
            event ∈ p.2
            ∧ ∀ T', fired (state_of (event_body p.1 event T')) (Event.id event) k
                    = true) polls →
  fired (run_polls polls T).1 (Event.id event) k = true.
Proof.
  intros Hret Hex. revert T Hret.
  induction Hex as [[now_local events] polls (Hin & Hmark)|p polls Hex IH];
    intros T Hret.
  - cbn [run_polls]. cbv zeta. cbn [fst snd] in *. apply run_polls_monotone.
    destruct Hret as [Hret _]. rewrite check_and_remind_outcome in Hret.
    rewrite check_and_remind_state. by apply for_each_marks.
  - destruct p as [now_local events]. cbn [run_polls]. cbv zeta. cbn [fst snd].
    apply IH. by destruct Hret as [_ Hret].
Qed.

(** Inside the started window the body leaves the started flag set. *)
Lemma event_body_marks_started now_local event T dateTime t :
  Event.start event = StartDateTime dateTime → local_start dateTime = Some t →
  timedelta_minutes (-5) < t - now_local ≤ timedelta_seconds 0 →
  fired (state_of (event_body now_local event T)) (Event.id event) k_started = true.
Proof.
  intros Hs Hp Hw.
  destruct (fired T (Event.id event) k_started) eqn:Ef;
    [by apply event_body_monotone|].
  rewrite event_body_state, (verdict_of_timed _ _ _ _ _ Hs Hp).
  assert (timed_verdict t (t - now_local) (default ∅ (T !! Event.id event))
          = Fire k_started) as ->.
  { apply timed_verdict_fire_started. by rewrite fired_default. }
  rewrite fired_set. by rewrite decide_True.
Qed.

(** X8. Polling often enough catches the start exactly once.  Take a
    timed event whose start parses and converts and whose started flag is
    not set, and checks that all return, with the event in every batch,
    whose clock readings never go back and are at most five minutes apart
    (the width of the started window; the scheduler fires every 60
    seconds).  If the first check is before the end of the started window
    and the last at or after the start, exactly one started notification
    is sent. *)
Theorem started_caught_once (event : Event.t) (dateTime : string) (t : Z)
    (polls : list (Z * list Event.t)) (T : Reminders) (first lst : Z) :
  Event.start event = StartDateTime dateTime →
  local_start dateTime = Some t →
  fired T (Event.id event) k_started = false →
  Forall (λ p : Z * list Event.t, event ∈ p.2) polls →
  checks_return polls T →
  gaps_at_most (timedelta_minutes 5) polls.*1 →
  head polls.*1 = Some first →
  last polls.*1 = Some lst →
  timedelta_minutes (-5) < t - first →
  t - lst ≤ timedelta_seconds 0 →
  sent_count (Event.id event) k_started (run_polls polls T).2 = 1%nat.
Proof.
  intros Hs Hp Hf Hall Hret Hg Hh Hl Hfirst Hlast.
  unfold timedelta_seconds, timedelta_minutes in Hg, Hfirst, Hlast.
  pose proof (polls_reach_window (5 * 60000000) (t - 1) polls
                first lst _ Hg Hh Hl ltac:(lia) ltac:(lia) Hall) as Hex.
  pose proof (run_polls_accounting polls T (Event.id event) k_started) as Ha.
  cbv zeta in Ha. rewrite Hf in Ha.
  rewrite (run_polls_marks polls T event k_started) in Ha; [simpl in Ha; lia|done|].
  eapply Exists_impl; [exact Hex|]. intros [now_local events] (Hw & Hin).
  cbn [fst snd] in *. split; [done|]. intros T'.
  apply (event_body_marks_started _ _ _ _ _ Hs Hp).
  unfold timedelta_seconds, timedelta_minutes. lia.
Qed.

(** X9. A window that no check falls into is lost for good: when the
    batches carry the event under its identifier and no clock reading lies
    in the window of a threshold, no reminder for the threshold is ever
    sent, earlier or later; likewise no started notification when no check
    falls into the five minutes from the start. *)
Theorem missed_window_never_made_up (event : Event.t) (dateTime : string) (t : Z)
    (polls : list (Z * list Event.t)) (T : Reminders) :
  Event.start event = StartDateTime dateTime →
  local_start dateTime = Some t →
  Forall (λ p : Z * list Event.t,
            Forall (λ event', Event.id event' = Event.id event → event' = event) p.2)
         polls →
  (∀ m, Forall (λ p : Z * list Event.t,
                  ¬ (timedelta_seconds (-10) ≤ t - p.1 - timedelta_minutes m
                       < timedelta_minutes 1)) polls →
        (Event.id event, k_threshold m) ∉ notifications (run_polls polls T).2)
  ∧ (Forall (λ p : Z * list Event.t,
               ¬ (timedelta_minutes (-5) < t - p.1 ≤ timedelta_seconds 0)) polls →
     (Event.id event, k_started) ∉ notifications (run_polls polls T).2).
Proof.
  intros Hs Hp Hcarry. split.
  - intros m Hout Hin.
    apply run_polls_notification_origin
      in Hin as (now_local & events & event' & T' & Hpoll & Hev & Hid & Hv).
    rewrite Forall_forall in Hcarry, Hout.
    specialize (Hcarry _ Hpoll). specialize (Hout _ Hpoll). cbn [fst snd] in *.
    rewrite Forall_forall in Hcarry. rewrite (Hcarry _ Hev Hid) in Hv.
    rewrite (verdict_of_timed _ _ _ _ _ Hs Hp) in Hv.
    apply timed_verdict_fire_threshold in Hv as (_ & Hw & _).
    by apply in_window_iff in Hw.
  - intros Hout Hin.
    apply run_polls_notification_origin
      in Hin as (now_local & events & event' & T' & Hpoll & Hev & Hid & Hv).
    rewrite Forall_forall in Hcarry, Hout.
    specialize (Hcarry _ Hpoll). specialize (Hout _ Hpoll). cbn [fst snd] in *.
    rewrite Forall_forall in Hcarry. rewrite (Hcarry _ Hev Hid) in Hv.
    rewrite (verdict_of_timed _ _ _ _ _ Hs Hp) in Hv.
    by apply timed_verdict_fire_started in Hv as [? _].
Qed.

End Cadences.

(** ** The order of the reminders of one event *)

Lemma due_order t k k' now_local now_local' :
  due_at t k now_local → due_at t k' now_local' →
  now_local ≤ now_local' → k ≠ k' →
  (milestone_rank k < milestone_rank k')%nat.
Proof.
  unfold due_at, reminder_thresholds, timedelta_seconds, timedelta_minutes.
  destruct k as [s|m], k' as [s'|m']; rewrite ?in_window_iff;
    unfold timedelta_seconds, timedelta_minutes;
    rewrite ?elem_of_cons, ?elem_of_nil.
  - intros [-> _] [-> _] _ Hne. done.
  - intros [_ Hw] [Hm' Hw'] Hle _. exfalso. lia.
  - intros [Hm _] _ _ _. simpl.
    destruct Hm as [->|[->|[->|[]]]]; simpl; lia.
  - intros [Hm Hw] [Hm' Hw'] Hle Hne. simpl.
    destruct Hm as [->|[->|[->|[]]]], Hm' as [->|[->|[->|[]]]]; simpl;
      try lia; try done.
Qed.

Section Order.
Context {lib : DatetimeLib}.

Lemma timed_fire_due t now_local d k :
  timed_verdict t (t - now_local) d = Fire k → due_at t k now_local.
Proof.
  intros Hv. destruct (timed_verdict_fire_cases _ _ _ _ Hv) as [->|[m ->]].
  - apply timed_verdict_fire_started in Hv as [Hw _]. by split.
  - apply timed_verdict_fire_threshold in Hv as (Hm & Hw & _). by split.
Qed.

(** Once the flag of the milestone that is due is set, the pass sends
    nothing more for the identifier. *)
Lemma for_each_quiet_for_due now_local events T event dateTime t k :
  Event.start event = StartDateTime dateTime → local_start dateTime = Some t →
  Forall (λ event', Event.id event' = Event.id event → event' = event) events →
  due_at t k now_local →
  fired T (Event.id event) k = true →
  keys_notified (Event.id event) (trace_of (for_each events (event_body now_local) T))
  = [].
Proof.
  intros Hs Hp Hcarry Hdue. revert T.
  induction Hcarry as [|event0 events Hc Hcarry IH]; intros T Hf; [done|].
  assert (Hq : keys_notified (Event.id event)
                 (trace_of (event_body now_local event0 T)) = []).
  { rewrite keys_notified_event_body. case_decide as Hid; [|done].
    rewrite (Hc Hid). rewrite (verdict_of_timed _ _ _ _ _ Hs Hp).
    destruct (timed_verdict _ _ _) as [k'| |] eqn:Ev; [|done..]. exfalso.
    pose proof (timed_fire_due _ _ _ _ Ev) as Hdue'.
    destruct (decide (k = k')) as [<-|Hne].
    - assert (Hu : default false (default ∅ (T !! Event.id event) !! k) = false).
      { eapply (verdict_fire_unset now_local event).
        by rewrite (verdict_of_timed _ _ _ _ _ Hs Hp). }
      rewrite fired_default in Hu. congruence.
    - pose proof (due_order _ _ _ _ _ Hdue Hdue' ltac:(lia) Hne).
      pose proof (due_order _ _ _ _ _ Hdue' Hdue ltac:(lia) ltac:(done)). lia. }
  destruct (outcome_cases (outcome_of (event_body now_local event0 T)))
    as [Ho|[e Ho]].
  - rewrite (for_each_trace_returned _ _ _ _ Ho), keys_notified_app, Hq.
    apply IH. rewrite <- Hf.
    destruct (decide (Event.id event0 = Event.id event)) as [Hid|Hid].
    + rewrite Hf. rewrite <- Hid. rewrite <- Hid in Hf. by apply event_body_monotone.
    + unfold fired. by rewrite (event_body_other_entry _ _ _ _ Hid).
  - by rewrite (for_each_trace_raised _ _ _ _ _ Ho).
Qed.

(** A pass sends at most one notification for the identifier, for the
    milestone that is due, and leaves its flag set. *)
Lemma for_each_keys now_local events T event dateTime t :
  Event.start event = StartDateTime dateTime → local_start dateTime = Some t →
  Forall (λ event', Event.id event' = Event.id event → event' = event) events →
  let r := for_each events (event_body now_local) T in
  keys_notified (Event.id event) (trace_of r) = []
  ∨ ∃ k, keys_notified (Event.id event) (trace_of r) = [k]
         ∧ due_at t k now_local
         ∧ fired (state_of r) (Event.id event) k = true.
Proof.
  intros Hs Hp Hcarry. revert T.
  induction Hcarry as [|event0 events Hc Hcarry IH]; intros T; [by left|].
  cbv zeta.
  pose proof (keys_notified_event_body now_local event0 T (Event.id event)) as Hk.
  destruct (outcome_cases (outcome_of (event_body now_local event0 T)))
    as [Ho|[e Ho]].
  - rewrite (for_each_trace_returned _ _ _ _ Ho), (for_each_state_returned _ _ _ _ Ho).
    rewrite keys_notified_app, Hk.
    case_decide as Hid; [|apply IH].
    rewrite (Hc Hid) in *. rewrite (verdict_of_timed _ _ _ _ _ Hs Hp) in *.
    pose proof (event_body_state now_local event T) as Hst.
    rewrite (verdict_of_timed _ _ _ _ _ Hs Hp) in Hst.
    destruct (timed_verdict _ _ _) as [k| |] eqn:Ev; [|apply IH..].
    right. exists k.
    assert (Hf : fired (state_of (event_body now_local event T)) (Event.id event) k
                 = true).
    { rewrite Hst, fired_set. by rewrite decide_True. }
    pose proof (timed_fire_due _ _ _ _ Ev) as Hdue.
    rewrite (for_each_quiet_for_due _ _ _ _ _ _ _ Hs Hp Hcarry Hdue Hf).
    split_and!; [done|done|]. by apply for_each_monotone.
  - rewrite (for_each_trace_raised _ _ _ _ _ Ho), Hk.
    case_decide as Hid; [|by left].
    rewrite event_body_outcome in Ho.
    destruct (verdict_of _ _ _) as [k| |e']; try done. by left.
Qed.

(** X10. The reminders of an event arrive in the order 15, 5, 1, started,
    each at most once: for a timed event with a readable start, over checks
    whose clock readings never go back and whose batches carry the event
    under its identifier, the keys notified for the identifier, read in the
    order of the trace, strictly follow that order (so never a threshold
    after the started notification, and never a larger threshold after a
    smaller one). *)
Theorem reminders_come_in_order (event : Event.t) (dateTime : string) (t : Z)
    (polls : list (Z * list Event.t)) (T : Reminders) :
  Event.start event = StartDateTime dateTime →
  local_start dateTime = Some t →
  Forall (λ p : Z * list Event.t,
            Forall (λ event', Event.id event' = Event.id event → event' = event) p.2)
         polls →
  StronglySorted Z.le polls.*1 →
  let keys := keys_notified (Event.id event) (run_polls polls T).2 in
  StronglySorted (λ k k', (milestone_rank k < milestone_rank k')%nat) keys
  ∧ Forall (λ k, k ∈ [k_threshold 15; k_threshold 5; k_threshold 1; k_started]) keys.
Proof.
  intros Hs Hp Hcarry Hsorted. cbv zeta. split.
  - revert T Hsorted.
    induction Hcarry as [|[now_local events] polls Hc Hcarry IH]; intros T Hsorted;
      [constructor|].
    rewrite fmap_cons in Hsorted. apply StronglySorted_inv in Hsorted as [Hsorted Hle].
    cbn [run_polls]. cbv zeta. cbn [fst snd] in *. rewrite keys_notified_app.
    destruct (check_and_remind_for_each now_local events T) as (_ & Hst & Hn).
    rewrite (keys_notified_same_notifications _ _ _ Hn), Hst.
    destruct (for_each_keys now_local events T event dateTime t Hs Hp Hc)
      as [->|(k & -> & Hdue & Hf)]; [by apply IH|].
    cbn [app]. constructor; [by apply IH|].
    apply Forall_forall. intros k' Hin.
    pose proof (run_polls_accounting polls
                  (state_of (for_each events (event_body now_local) T))
                  (Event.id event) k) as Ha.
    cbv zeta in Ha. rewrite Hf in Ha.
    assert (Hne : k ≠ k').
    { intros <-. apply elem_of_keys_notified, sent_count_pos in Hin.
      destruct (fired (run_polls polls _).1 (Event.id event) k); simpl in Ha; lia. }
    apply elem_of_keys_notified, run_polls_notification_origin
      in Hin as (now' & events' & event' & T' & Hpoll & Hev & Hid & Hv).
    rewrite Forall_forall in Hcarry. specialize (Hcarry _ Hpoll). cbn [fst snd] in *.
    rewrite Forall_forall in Hcarry. rewrite (Hcarry _ Hev Hid) in Hv.
    rewrite (verdict_of_timed _ _ _ _ _ Hs Hp) in Hv.
    apply timed_fire_due in Hv.
    rewrite Forall_forall in Hle.
    assert (now_local ≤ now').
    { apply Hle. apply list_elem_of_fmap. by exists (now', events'). }
    by apply (due_order t k k' now_local now').
  - apply Forall_forall. intros k Hin.
    apply elem_of_keys_notified, run_polls_notification_origin
      in Hin as (now' & events' & event' & T' & Hpoll & Hev & Hid & Hv).
    rewrite Forall_forall in Hcarry. specialize (Hcarry _ Hpoll). cbn [fst snd] in *.
    rewrite Forall_forall in Hcarry. rewrite (Hcarry _ Hev Hid) in Hv.
    rewrite (verdict_of_timed _ _ _ _ _ Hs Hp) in Hv.
    apply timed_fire_due in Hv. destruct k as [s|m]; destruct Hv as [Hk _].
    + rewrite Hk. by repeat constructor.
    + unfold reminder_thresholds in Hk. rewrite !elem_of_cons, elem_of_nil in Hk.
      destruct Hk as [->|[->|[->|[]]]]; by repeat constructor.
Qed.

End Order.

(** * The job with its fetch *)

Section Job.
Context {lib : DatetimeLib} {flib : FetchLib}.

Lemma check_and_remind_service_run service now_local T :
  let r' := check_and_remind now_local (fetched service now_local) T in
  ∃ first fetch_logs rest,
    trace_of r' = first :: rest
    ∧ Forall (λ e, ∃ lv msg, e = Log lv msg) fetch_logs
    ∧ check_and_remind_service service now_local T
      = (outcome_of r', state_of r', first :: fetch_logs ++ rest).
Proof.
  unfold check_and_remind_service, check_and_remind, get_upcoming_events, fetched,
    job_request, bind, logger, emit, ret.
  cbn [from_option]. unfold id.
  destruct (service _) as [[[|event events]|]|error];
    cbv beta iota zeta; cbn [from_option]; unfold id.
  - eexists _, [_], _. split; [reflexivity|]. split; [repeat constructor; eauto|].
    reflexivity.
  - generalize (event :: events). intros batch.
    destruct (for_each batch _ T) as [[o T1] tr1].
    eexists _, [_], _. split; [reflexivity|]. split; [repeat constructor; eauto|].
    reflexivity.
  - eexists _, [_], _. split; [reflexivity|]. split; [repeat constructor; eauto|].
    reflexivity.
  - eexists _, [_; _], _. split; [reflexivity|]. split; [repeat constructor; eauto|].
    reflexivity.
Qed.

(** X11. The job is the engine run on what the fetch returns.  It asks the
    calendar for the window from five minutes before to sixty minutes
    after the clock reading and at most 20 single events ordered by start;
    on the items of the answer (none when the key is absent or the request
    failed) it leaves the same table, sends the same notifications and ends
    the same way as the engine on that batch, the only difference being the
    log records of the fetch. *)
Theorem job_runs_engine_on_fetched (service : list_request -> list_response)
    (now_local : Z) (T : Reminders) :
  let r := check_and_remind_service service now_local T in
  let r' := check_and_remind now_local (fetched service now_local) T in
  outcome_of r = outcome_of r'
  ∧ state_of r = state_of r'
  ∧ notifications (trace_of r) = notifications (trace_of r')
  ∧ ∃ first fetch_logs rest,
      trace_of r' = first :: rest
      ∧ trace_of r = first :: fetch_logs ++ rest
      ∧ Forall (λ e, ∃ lv msg, e = Log lv msg) fetch_logs.
Proof.
  cbv zeta.
  destruct (check_and_remind_service_run service now_local T)
    as (first & fetch_logs & rest & Htr & Hlogs & ->).
  unfold outcome_of at 1, state_of at 1, trace_of at 1 3. cbn [fst snd].
  assert (Hn : notifications fetch_logs = []).
  { clear -Hlogs. induction Hlogs as [|e logs (lv & msg & ->) _ IH]; [done|].
    exact IH. }
  split_and!; [done|done| |].
  - rewrite Htr.
    change (first :: fetch_logs ++ rest) with ([first] ++ fetch_logs ++ rest).
    change (first :: rest) with ([first] ++ rest).
    by rewrite !notifications_app, Hn.
  - by exists first, fetch_logs, rest.
Qed.

(** X12. A failing calendar request never surfaces: when the request
    raises [HttpError], the fetch logs the error and returns the empty
    list, and the job reports that no events were found, sends nothing and
    leaves the table exactly as it was; the reminders due at that clock
    reading are not tried. *)
Theorem fetch_failure_is_silent (service : list_request -> list_response)
    (now_local : Z) (T : Reminders) (error : string) :
  service (job_request now_local) = ListHttpError error →
  get_upcoming_events service now_local (Some 20)
    (Some (fetch_start_time now_local)) (Some (fetch_end_time now_local)) T
  = (Returned [], T,
     [Log INFO ("Getting upcoming events from " +:+
                strftime_YmdHM (fetch_start_time now_local) +:+ " to " +:+
                strftime_YmdHM (fetch_end_time now_local));
      Log ERROR ("An error occurred while fetching events: " +:+ error)])
  ∧ outcome_of (check_and_remind_service service now_local T) = Returned tt
  ∧ state_of (check_and_remind_service service now_local T) = T
  ∧ notifications (trace_of (check_and_remind_service service now_local T)) = []
  ∧ last (trace_of (check_and_remind_service service now_local T))
    = Some (Log INFO "No upcoming events found in the current check window.").
Proof.
  intros Herr. unfold job_request in Herr.
  assert (Hrun : get_upcoming_events service now_local (Some 20)
                   (Some (fetch_start_time now_local))
                   (Some (fetch_end_time now_local)) T
                 = (Returned [], T,
                    [Log INFO ("Getting upcoming events from " +:+
                               strftime_YmdHM (fetch_start_time now_local) +:+
                               " to " +:+
                               strftime_YmdHM (fetch_end_time now_local));
                     Log ERROR ("An error occurred while fetching events: "
                                +:+ error)])).
  { unfold get_upcoming_events, bind, logger, emit, ret.
    cbn [from_option]. unfold id. by rewrite Herr. }
  split; [exact Hrun|].
  unfold check_and_remind_service, get_upcoming_events, bind, logger, emit, ret.
  cbn [from_option]. unfold id. by rewrite Herr.
Qed.

(** X13. The fetch window covers every timed start the engine can notify:
    whenever a check sends a started notification or a threshold reminder,
    it sends it for a timed event of its batch whose start lies strictly
    after the lower end of the requested window and less than sixteen
    minutes after the clock reading, well before the upper end of the
    window, sixty minutes after it. *)
Theorem notified_start_within_fetch_window (now_local : Z) (events : list Event.t)
    (T : Reminders) (event_id : string) (k : key) :
  (event_id, k) ∈ notifications (trace_of (check_and_remind now_local events T)) →
  k ≠ k_all_day_today →
  ∃ event dateTime t,
    event ∈ events ∧ Event.id event = event_id
    ∧ Event.start event = StartDateTime dateTime
    ∧ local_start dateTime = Some t
    ∧ fetch_start_time now_local < t < fetch_end_time now_local
    ∧ t - now_local < timedelta_minutes 16.
Proof.
  intros (event & T' & Hin & Hid & Hv)%check_and_remind_notification_origin Hk.
  destruct (verdict_of_timed_inv _ _ _ _ Hv ltac:(done))
    as [(dateTime & t & Hs & Hp & Ht)|[(? & ? & _ & _ & _ & [=])|[s Hs]]].
  - exists event, dateTime, t. repeat (split; [done|]).
    apply timed_fire_due in Ht.
    unfold fetch_start_time, fetch_end_time, timedelta_minutes.
    destruct k as [s|m]; destruct Ht as [Hm Hw].
    + unfold timedelta_seconds, timedelta_minutes in Hw. lia.
    + apply in_window_iff in Hw. unfold timedelta_seconds, timedelta_minutes in Hw.
      unfold reminder_thresholds in Hm. rewrite !elem_of_cons, elem_of_nil in Hm. lia.
  - exfalso. revert Hv. unfold verdict_of. rewrite Hs.
    destruct (strptime_date s); [|done].
    destruct (_ && _); [|done]. by intros [= <-].
Qed.

End Job.

(** * The notifier *)

(** X14. The notifier never fails and never loses the text: whatever the
    desktop backend does (absent, working, or raising), the call returns,
    tries the backend at most once (not at all exactly when it is absent),
    and writes exactly one INFO record, which ends with the title and the
    message; the record says the desktop notification was sent exactly when
    a backend is there and returned, and is a console reminder otherwise;
    an ERROR record is written exactly when the backend raised. *)
Theorem notifier_always_reports
    (notification : option (string -> string -> option string))
    (title message : string) :
  let r := send_notification_impl notification title message in
  r.1 = Returned tt
  ∧ (∃ prefix,
       notifier_logs INFO r.2 = [prefix +:+ title +:+ " - " +:+ message]
       ∧ (prefix = "Desktop Notification Sent: "
          ∧ (∃ notify, notification = Some notify ∧ notify title message = None)
          ∨ prefix = "Console Reminder: "
            ∧ ¬ (∃ notify, notification = Some notify
                           ∧ notify title message = None)))
  ∧ (desktop_attempts r.2 ≤ 1)%nat
  ∧ (desktop_attempts r.2 = 0%nat ↔ notification = None)
  ∧ (notifier_logs ERROR r.2 ≠ [] ↔
     ∃ notify e, notification = Some notify ∧ notify title message = Some e).
Proof.
  cbv zeta. unfold send_notification_impl, desktop_attempts.
  destruct notification as [notify|].
  - destruct (notify title message) as [e|] eqn:E.
    + split_and!; [done| |simpl; lia|done|].
      * eexists. split; [reflexivity|]. right. split; [done|].
        intros (n & [= <-] & ?). congruence.
      * split; [eauto|done].
    + split_and!; [done| |simpl; lia|done|].
      * eexists. split; [reflexivity|]. left. split; [done|]. eauto.
      * split; [done|]. intros (n & e & [= <-] & ?). congruence.
  - split_and!; [done| |simpl; lia|done|].
    + eexists. split; [reflexivity|]. right. split; [done|].
      intros (n & ? & ?). done.
    + split; [done|]. intros (n & e & ? & ?). done.
Qed.

(** * The order of a batch *)

Section Orders.
Context {lib : DatetimeLib}.

Lemma event_body_entry now_local event :
  ∃ f : gmap (string + Z) bool → gmap (string + Z) bool,
    ∀ T, state_of (event_body now_local event T)
         = <[Event.id event := f (default ∅ (T !! Event.id event))]> T.
Proof.
  exists (λ d, match verdict_of now_local event d with
               | Fire k => <[k := true]> d
               | _ => d
               end).
  intros T. rewrite event_body_state. by destruct (verdict_of _ _ _).
Qed.

Lemma event_body_swap now_local x y T :
  Event.id x ≠ Event.id y →
  state_of (event_body now_local x (state_of (event_body now_local y T)))
  = state_of (event_body now_local y (state_of (event_body now_local x T)))
  ∧ notifications (trace_of (event_body now_local x
                               (state_of (event_body now_local y T))))
    = notifications (trace_of (event_body now_local x T))
  ∧ outcome_of (event_body now_local x (state_of (event_body now_local y T)))
    = outcome_of (event_body now_local x T).
Proof.
  intros Hne.
  destruct (event_body_entry now_local x) as [fx Hx].
  destruct (event_body_entry now_local y) as [fy Hy].
  split_and!.
  - rewrite (Hx (state_of _)), (Hy (state_of _)), (Hx T), (Hy T).
    rewrite !lookup_insert_ne by done. by apply insert_insert_ne.
  - rewrite !event_body_notifications.
    by rewrite (event_body_other_entry _ _ _ _ (not_eq_sym Hne)).
  - rewrite !event_body_outcome.
    by rewrite (event_body_other_entry _ _ _ _ (not_eq_sym Hne)).
Qed.

Lemma for_each_returned_inv now_local event events T :
  outcome_of (for_each (event :: events) (event_body now_local) T) = Returned tt →
  outcome_of (event_body now_local event T) = Returned tt
  ∧ outcome_of (for_each events (event_body now_local)
                  (state_of (event_body now_local event T))) = Returned tt.
Proof.
  intros Hret.
  destruct (outcome_cases (outcome_of (event_body now_local event T)))
    as [Ho|[e Ho]].
  - by rewrite (for_each_outcome_returned _ _ _ _ Ho) in Hret.
  - by rewrite (for_each_outcome_raised _ _ _ _ _ Ho) in Hret.
Qed.

Lemma for_each_permutation now_local events events' T :
  events ≡ₚ events' →
  NoDup (Event.id <$> events) →
  outcome_of (for_each events (event_body now_local) T) = Returned tt →
  outcome_of (for_each events' (event_body now_local) T) = Returned tt
  ∧ state_of (for_each events (event_body now_local) T)
    = state_of (for_each events' (event_body now_local) T)
  ∧ notifications (trace_of (for_each events (event_body now_local) T))
    ≡ₚ notifications (trace_of (for_each events' (event_body now_local) T)).
Proof.
  intros Hperm. revert T.
  induction Hperm as [|x l l' Hperm IH|x y l|l l' l'' Hperm IH Hperm' IH'];
    intros T Hnd Hret.
  - done.
  - rewrite fmap_cons in Hnd. apply NoDup_cons in Hnd as [_ Hnd].
    apply for_each_returned_inv in Hret as [Hx Hret].
    destruct (IH (state_of (event_body now_local x T)) Hnd Hret) as (Ho & Hst & Hn).
    rewrite !(for_each_outcome_returned _ _ _ _ Hx),
      !(for_each_state_returned _ _ _ _ Hx), !(for_each_trace_returned _ _ _ _ Hx).
    rewrite !notifications_app. split_and!; [done|done|]. by f_equiv.
  - rewrite !fmap_cons in Hnd. apply NoDup_cons in Hnd as [Hyx Hnd].
    assert (Hne : Event.id x ≠ Event.id y).
    { intros Heq. apply Hyx. rewrite Heq. apply list_elem_of_here. }
    apply for_each_returned_inv in Hret as [Hy Hret].
    apply for_each_returned_inv in Hret as [Hxy Hret].
    destruct (event_body_swap now_local x y T Hne) as (Hst & Hnx & Hox).
    destruct (event_body_swap now_local y x T (not_eq_sym Hne)) as (_ & Hny & Hoy).
    assert (Hx : outcome_of (event_body now_local x T) = Returned tt)
      by (by rewrite <- Hox).
    assert (Hyx' : outcome_of (event_body now_local y
                                 (state_of (event_body now_local x T))) = Returned tt)
      by (by rewrite Hoy).
    rewrite (for_each_outcome_returned _ _ _ _ Hx),
      (for_each_outcome_returned _ _ _ _ Hyx').
    rewrite (for_each_state_returned _ _ _ _ Hy),
      (for_each_state_returned _ _ _ _ Hxy).
    rewrite (for_each_state_returned _ _ _ _ Hx),
      (for_each_state_returned _ _ _ _ Hyx').
    rewrite (for_each_trace_returned _ _ _ _ Hy),
      (for_each_trace_returned _ _ _ _ Hxy).
    rewrite (for_each_trace_returned _ _ _ _ Hx),
      (for_each_trace_returned _ _ _ _ Hyx').
    rewrite !notifications_app, Hnx, Hny, <- Hst.
    split_and!; [done|done|].
    rewrite !app_assoc. f_equiv. apply Permutation_app_comm.
  - destruct (IH T Hnd Hret) as (Ho & -> & ->).
    apply IH'; [by rewrite <- Hperm|done].
Qed.

(** X16. The order of a batch does not matter to a check that returns:
    for a batch with pairwise distinct identifiers on which the check
    returns, the check returns on every reordering of the batch, leaves
    the same table and sends the same notifications, up to their order. *)
Theorem batch_order_is_irrelevant (now_local : Z) (events events' : list Event.t)
    (T : Reminders) :
  events ≡ₚ events' →
  NoDup (Event.id <$> events) →
  outcome_of (check_and_remind now_local events T) = Returned tt →
  outcome_of (check_and_remind now_local events' T) = Returned tt
  ∧ state_of (check_and_remind now_local events T)
    = state_of (check_and_remind now_local events' T)
  ∧ notifications (trace_of (check_and_remind now_local events T))
    ≡ₚ notifications (trace_of (check_and_remind now_local events' T)).
Proof.
  intros Hperm Hnd.
  rewrite !check_and_remind_outcome, !check_and_remind_state,
    !check_and_remind_notifications.
  by apply for_each_permutation.
Qed.

End Orders.

(** * The engine on the sample inputs *)

Example ref_reads_starts :
  Ref.ref_fromisoformat "2024-03-01T10:00:00+05:30" = Some Sample.at_10_00
  ∧ local_start (lib := Ref.lib) "2024-03-01T10:15:00+05:30" = Some Sample.at_10_15
  ∧ local_start (lib := Ref.lib) "2024-03-01T04:45:00Z" = Some Sample.at_10_15
  ∧ parsed_start (lib := Ref.lib) "not-a-date" = None
  ∧ parsed_start (lib := Ref.lib) "9999-12-31T23:30:00+00:00"
    = Some Sample.at_range_end
  ∧ local_start (lib := Ref.lib) "9999-12-31T23:30:00+00:00" = None
  ∧ Ref.ref_strptime_date "not-a-date" = None
  ∧ Ref.ref_strptime_date "2024-03-01" = Some (Date 2024 3 1)
  ∧ Ref.ref_local_date Sample.at_10_00 = Date 2024 3 1.
Proof. vm_compute. repeat split. Qed.

(** The event is first seen three minutes before its start: nothing is
    sent until the start. *)
Example first_seen_late :
  notifications
    (run_polls (lib := Ref.lib)
       [(Sample.at_10_15 - 3 * Sample.minute, [Sample.standup]);
        (Sample.at_10_15 - 2 * Sample.minute - 1, [Sample.standup]);
        (Sample.at_10_15, [Sample.standup]);
        (Sample.at_10_15 + Sample.minute, [Sample.standup])] ∅).2
  = [("e1", k_started)].
Proof. vm_compute. reflexivity. Qed.

Example started_at_the_start :
  check_and_remind (lib := Ref.lib) Sample.at_10_15 [Sample.standup] ∅
  = (Returned tt, <["e1" := <[k_started := true]> ∅]> ∅,
     [Log INFO "Running reminder check at 2024-03-01 10:15:00";
      Notify "e1" k_started "Event Started: Standup" "It's happening now! Link: #";
      Log INFO "Notification sent for 'Standup' as it started."]).
Proof. vm_compute. reflexivity. Qed.

Example empty_batch :
  check_and_remind (lib := Ref.lib) Sample.at_10_00 [] ∅
  = (Returned tt, ∅,
     [Log INFO "Running reminder check at 2024-03-01 10:00:00";
      Log INFO "No upcoming events found in the current check window."]).
Proof. reflexivity. Qed.

(** A start that parses but has no counterpart in the local zone: line
    156 raises, and the stand-up after it is not looked at. *)
Example start_out_of_range :
  check_and_remind (lib := Ref.lib) Sample.at_10_15
    [Sample.far_future; Sample.standup] ∅
  = (Raised OverflowError, <["e5" := ∅]> ∅,
     [Log INFO "Running reminder check at 2024-03-01 10:15:00"]).
Proof. vm_compute. reflexivity. Qed.

(** ** Where the code departs from the specification *)

(** C2 fails on the code.  The stand-up starts in exactly fifteen minutes,
    inside the window of the 15-minute threshold, and no flag is set: the
    check raises [ValueError] at line 191 while it builds the message,
    before [send_notification] and before the flag is set; no reminder is
    emitted, the table holds the empty entry of the event and nothing
    else, and an event after it in the batch is not looked at.  Over a
    minute-by-minute run of checks from seventeen minutes before the start
    to five minutes after it, no threshold reminder is ever emitted: the
    checks inside the three windows raise. *)
Theorem due_threshold_raises :
  local_start (lib := Ref.lib) "2024-03-01T10:15:00+05:30" = Some Sample.at_10_15
  ∧ threshold_due (Sample.at_10_15 - Sample.at_10_00) ∅ 15 = true
  ∧ tzname (DatetimeLib := Ref.lib) Sample.at_10_15 = None
  ∧ check_and_remind (lib := Ref.lib) Sample.at_10_00 [Sample.standup] ∅
    = (Raised ValueError, <["e1" := ∅]> ∅,
       [Log INFO "Running reminder check at 2024-03-01 10:00:00"])
  ∧ check_and_remind (lib := Ref.lib) Sample.at_10_00
      [Sample.standup; Sample.holiday] ∅
    = (Raised ValueError, <["e1" := ∅]> ∅,
       [Log INFO "Running reminder check at 2024-03-01 10:00:00"])
  ∧ notifications (run_polls (lib := Ref.lib) Cadence.polls ∅).2
    = [("e2", k_all_day_today); ("e1", k_started)].
Proof. split_and!; vm_compute; reflexivity. Qed.

(** C5 fails on the code: an all-day event whose date string is not a date
    makes the check raise [ValueError] at line 201; the event is not
    logged, and the events after it in the batch are not looked at, here
    the stand-up that has just started and that the check notifies when
    the bad event is not in the batch. *)
Theorem all_day_not_a_date_raises :
  Ref.ref_strptime_date "not-a-date" = None
  ∧ check_and_remind (lib := Ref.lib) Sample.at_10_15
      [Sample.broken_all_day; Sample.standup] ∅
    = (Raised ValueError, <["e4" := ∅]> ∅,
       [Log INFO "Running reminder check at 2024-03-01 10:15:00"])
  ∧ notifications
      (trace_of (check_and_remind (lib := Ref.lib) Sample.at_10_15
                   [Sample.standup] ∅))
    = [("e1", k_started)].
Proof. split_and!; vm_compute; reflexivity. Qed.


(** C4 as stated fails: the table before holds no identifier, the table
    after holds the identifier of the skipped event. *)
Lemma unparseable_start_changes_table :
  Event.start Sample.broken_timed = StartDateTime "not-a-date"
  ∧ parsed_start (lib := Ref.lib) "not-a-date" = None
  ∧ state_of (event_body (lib := Ref.lib) Sample.at_10_00 Sample.broken_timed ∅) ≠ ∅.
Proof.
  split_and!; [reflexivity|vm_compute; reflexivity|].
  intros H. apply (f_equal (λ T : Reminders, T !! "e3")) in H.
  vm_compute in H. discriminate H.
Qed.

(** ** Instances of the properties *)

Lemma started_window_witness :
  Event.start Sample.standup = StartDateTime "2024-03-01T10:15:00+05:30"
  ∧ local_start (lib := Ref.lib) "2024-03-01T10:15:00+05:30" = Some Sample.at_10_15
  ∧ Forall (λ event', Event.id event' ≠ Event.id Sample.standup)
      ([Sample.holiday] ++ [])
  ∧ ("e1", k_started)
    ∈ notifications (trace_of (check_and_remind (lib := Ref.lib) Sample.at_10_15
                                 ([Sample.holiday] ++ Sample.standup :: []) ∅)).
Proof.
  assert (H1 : Event.start Sample.standup = StartDateTime "2024-03-01T10:15:00+05:30")
    by reflexivity.
  assert (H2 : local_start (lib := Ref.lib) "2024-03-01T10:15:00+05:30"
               = Some Sample.at_10_15) by (vm_compute; reflexivity).
  assert (H3 : Forall (λ event', Event.id event' ≠ Event.id Sample.standup)
                 ([Sample.holiday] ++ []))
    by (repeat constructor; discriminate).
  split_and!; [exact H1|exact H2|exact H3|].
  destruct (started_window (lib := Ref.lib) Sample.at_10_15 [Sample.holiday] []
              Sample.standup ∅ _ _ H1 H2 H3) as (Hiff & _).
  apply Hiff. split_and!.
  - vm_compute. reflexivity.
  - vm_compute. reflexivity.
  - vm_compute. discriminate.
  - reflexivity.
Defined.

Lemma unparseable_start_skipped_witness :
  Event.start Sample.broken_timed = StartDateTime "not-a-date"
  ∧ parsed_start (lib := Ref.lib) "not-a-date" = None
  ∧ notifications (trace_of (event_body (lib := Ref.lib) Sample.at_10_00
                               Sample.broken_timed ∅)) = []
  ∧ state_of (event_body (lib := Ref.lib) Sample.at_10_00 Sample.broken_timed ∅)
    = <["e3" := ∅]> ∅.
Proof.
  assert (H1 : Event.start Sample.broken_timed = StartDateTime "not-a-date")
    by reflexivity.
  assert (H2 : parsed_start (lib := Ref.lib) "not-a-date" = None)
    by (vm_compute; reflexivity).
  split_and!; [exact H1|exact H2| |].
  - exact (proj1 (proj2 (unparseable_start_skipped (lib := Ref.lib) Sample.at_10_00
                            Sample.broken_timed ∅ _ H1 H2))).
  - exact (proj2 (proj2 (proj2 (proj2
             (unparseable_start_skipped (lib := Ref.lib) Sample.at_10_00
                Sample.broken_timed ∅ _ H1 H2))))).
Defined.

(** The stand-up is seen at its start, and a minute later the calendar
    reports it moved to 10:31: no threshold reminder goes out. *)
Lemma started_suppresses_thresholds_witness :
  Event.start Sample.standup = StartDateTime "2024-03-01T10:15:00+05:30"
  ∧ local_start (lib := Ref.lib) "2024-03-01T10:15:00+05:30" = Some Sample.at_10_15
  ∧ Sample.at_10_15 - Sample.at_10_15 ≤ timedelta_seconds 0
  ∧ ∀ m, ("e1", k_threshold m)
         ∉ notifications
             (run_polls (lib := Ref.lib)
                [(Sample.at_10_15, [Sample.standup]);
                 (Sample.at_10_15 + Sample.minute, [Sample.standup_moved])]
                ∅).2.
Proof.
  assert (H1 : Event.start Sample.standup = StartDateTime "2024-03-01T10:15:00+05:30")
    by reflexivity.
  assert (H2 : local_start (lib := Ref.lib) "2024-03-01T10:15:00+05:30"
               = Some Sample.at_10_15) by (vm_compute; reflexivity).
  assert (H3 : Sample.at_10_15 - Sample.at_10_15 ≤ timedelta_seconds 0)
    by (vm_compute; discriminate).
  split_and!; [exact H1|exact H2|exact H3|].
  apply (proj2 (started_suppresses_thresholds (lib := Ref.lib) Sample.standup
                  _ _ _ H1 H2 H3) 0).
  - intros t' _. reflexivity.
  - repeat constructor; vm_compute; discriminate.
Defined.

Lemma all_day_notification_witness :
  Event.start Sample.holiday = StartDate "2024-03-01"
  ∧ strptime_date (DatetimeLib := Ref.lib) "2024-03-01" = Some (Date 2024 3 1)
  ∧ sent_count "e2" k_all_day_today
      (run_polls (lib := Ref.lib)
         ([] ++ (Sample.at_10_00, [] ++ Sample.holiday :: [Sample.standup])
             :: [(Sample.at_10_00 + Sample.minute, [Sample.holiday; Sample.standup])])
         ∅).2
    = 1%nat.
Proof.
  assert (H1 : Event.start Sample.holiday = StartDate "2024-03-01") by reflexivity.
  assert (H2 : strptime_date (DatetimeLib := Ref.lib) "2024-03-01"
               = Some (Date 2024 3 1)) by (vm_compute; reflexivity).
  split_and!; [exact H1|exact H2|].
  apply (proj2 (all_day_notification (lib := Ref.lib) Sample.holiday _ _ H1 H2)).
  - reflexivity.
  - vm_compute. reflexivity.
  - vm_compute. reflexivity.
Defined.

Lemma long_past_event_ignored_witness :
  Event.start Sample.standup = StartDateTime "2024-03-01T10:15:00+05:30"
  ∧ local_start (lib := Ref.lib) "2024-03-01T10:15:00+05:30" = Some Sample.at_10_15
  ∧ Sample.at_10_15 - (Sample.at_10_15 + 5 * Sample.minute) ≤ timedelta_minutes (-5)
  ∧ notifications (trace_of (event_body (lib := Ref.lib)
                               (Sample.at_10_15 + 5 * Sample.minute)
                               Sample.standup ∅)) = [].
Proof.
  assert (H1 : Event.start Sample.standup = StartDateTime "2024-03-01T10:15:00+05:30")
    by reflexivity.
  assert (H2 : local_start (lib := Ref.lib) "2024-03-01T10:15:00+05:30"
               = Some Sample.at_10_15) by (vm_compute; reflexivity).
  assert (H3 : Sample.at_10_15 - (Sample.at_10_15 + 5 * Sample.minute)
               ≤ timedelta_minutes (-5)) by (vm_compute; discriminate).
  split_and!; [exact H1|exact H2|exact H3|].
  exact (proj1 (proj2 (long_past_event_ignored (lib := Ref.lib) _ Sample.standup ∅
                         _ _ H1 H2 H3))).
Defined.

(** ** The further properties on the sample inputs *)

(** The job at the start of the stand-up, and a quarter of an hour
    earlier, when the 15-minute threshold is due. *)
Example job_on_sample_calendar :
  notifications
    (trace_of (check_and_remind_service (lib := Ref.lib) (flib := RefFetch.flib)
                 RefFetch.calendar Sample.at_10_15 ∅))
  = [("e1", k_started)]
  ∧ job_request (flib := RefFetch.flib) Sample.at_10_15
    = ListRequest "primary" "2024-03-01T04:40:00+00:00" "2024-03-01T05:45:00+00:00"
        20 true "startTime"
  ∧ (let r := check_and_remind_service (lib := Ref.lib) (flib := RefFetch.flib)
                RefFetch.calendar Sample.at_10_00 ∅ in
     (outcome_of r, trace_of r))
    = (Raised ValueError,
       [Log INFO "Running reminder check at 2024-03-01 10:00:00";
        Log INFO "Getting upcoming events from 2024-03-01 09:55 to 2024-03-01 11:00"]).
Proof. split_and!; vm_compute; reflexivity. Qed.

Lemma other_identifiers_untouched_witness :
  Forall (λ p : Z * list Event.t, Forall (λ event, Event.id event ≠ "e1") p.2)
    [(Sample.at_10_00, [Sample.holiday]); (Sample.at_10_15, [Sample.holiday])]
  ∧ (run_polls (lib := Ref.lib)
       [(Sample.at_10_00, [Sample.holiday]); (Sample.at_10_15, [Sample.holiday])]
       ∅).1 !! "e1" = (∅ : Reminders) !! "e1".
Proof.
  assert (H : Forall (λ p : Z * list Event.t,
                        Forall (λ event, Event.id event ≠ "e1") p.2)
                [(Sample.at_10_00, [Sample.holiday]);
                 (Sample.at_10_15, [Sample.holiday])])
    by (repeat constructor; simpl; discriminate).
  split; [exact H|].
  exact (proj1 (other_identifiers_untouched (lib := Ref.lib) _ ∅ "e1" H)).
Defined.

Lemma table_keeps_its_shape_witness :
  flags_well_formed ∅
  ∧ flags_well_formed (run_polls (lib := Ref.lib) Cadence.polls ∅).1.
Proof.
  assert (H : flags_well_formed ∅).
  { intros event_id d k b Hl. rewrite lookup_empty in Hl. discriminate Hl. }
  split; [exact H|].
  exact (proj1 (table_keeps_its_shape (lib := Ref.lib) Cadence.polls ∅ H)).
Defined.


Lemma events_after_bad_date_skipped_witness :
  Event.start Sample.broken_all_day = StartDate "not-a-date"
  ∧ strptime_date (DatetimeLib := Ref.lib) "not-a-date" = None
  ∧ notifications
      (trace_of (check_and_remind (lib := Ref.lib) Sample.at_10_00
                   ([Sample.holiday] ++ Sample.broken_all_day :: [Sample.standup]) ∅))
    = notifications
        (trace_of (check_and_remind (lib := Ref.lib) Sample.at_10_00
                     [Sample.holiday] ∅)).
Proof.
  assert (H1 : Event.start Sample.broken_all_day = StartDate "not-a-date")
    by reflexivity.
  assert (H2 : strptime_date (DatetimeLib := Ref.lib) "not-a-date" = None)
    by (vm_compute; reflexivity).
  split_and!; [exact H1|exact H2|].
  exact (proj2 (events_after_bad_date_skipped (lib := Ref.lib) Sample.at_10_00
                  [Sample.holiday] [Sample.standup] Sample.broken_all_day ∅ _ H1 H2)).
Defined.

Lemma due_threshold_aborts_check_witness :
  Event.start Sample.standup = StartDateTime "2024-03-01T10:15:00+05:30"
  ∧ local_start (lib := Ref.lib) "2024-03-01T10:15:00+05:30" = Some Sample.at_10_15
  ∧ 15 ∈ reminder_thresholds
  ∧ (timedelta_seconds (-10) ≤ Sample.at_10_15 - Sample.at_10_00 - timedelta_minutes 15
       < timedelta_minutes 1)
  ∧ fired ∅ "e1" (k_threshold 15) = false
  ∧ tzname (DatetimeLib := Ref.lib) Sample.at_10_15 = None
  ∧ Forall (λ event', Event.id event' ≠ Event.id Sample.standup) [Sample.holiday]
  ∧ outcome_of (check_and_remind (lib := Ref.lib) Sample.at_10_00 [Sample.holiday] ∅)
    = Returned tt
  ∧ outcome_of (check_and_remind (lib := Ref.lib) Sample.at_10_00
                  ([Sample.holiday] ++ Sample.standup :: [Sample.broken_timed]) ∅)
    = Raised ValueError.
Proof.
  assert (H1 : Event.start Sample.standup = StartDateTime "2024-03-01T10:15:00+05:30")
    by reflexivity.
  assert (H2 : local_start (lib := Ref.lib) "2024-03-01T10:15:00+05:30"
               = Some Sample.at_10_15) by (vm_compute; reflexivity).
  assert (H3 : 15 ∈ reminder_thresholds) by (by repeat constructor).
  assert (H4 : timedelta_seconds (-10)
               ≤ Sample.at_10_15 - Sample.at_10_00 - timedelta_minutes 15
               < timedelta_minutes 1)
    by (vm_compute; split; [discriminate|reflexivity]).
  assert (H5 : fired ∅ "e1" (k_threshold 15) = false) by reflexivity.
  assert (H6 : tzname (DatetimeLib := Ref.lib) Sample.at_10_15 = None) by reflexivity.
  assert (H7 : Forall (λ event', Event.id event' ≠ Event.id Sample.standup)
                 [Sample.holiday]) by (repeat constructor; discriminate).
  assert (H8 : outcome_of (check_and_remind (lib := Ref.lib) Sample.at_10_00
                             [Sample.holiday] ∅) = Returned tt)
    by (vm_compute; reflexivity).
  split; [exact H1|]. split; [exact H2|]. split; [exact H3|]. split; [exact H4|].
  split; [exact H5|]. split; [exact H6|]. split; [exact H7|]. split; [exact H8|].
  exact (proj1 (due_threshold_aborts_check (lib := Ref.lib) Sample.at_10_00
                  [Sample.holiday] [Sample.broken_timed] Sample.standup ∅ _ _ 15
                  H1 H2 H3 H4 H5 H6 H7 H8)).
Defined.

Lemma cadence_carries :
  Forall (λ p : Z * list Event.t,
            Forall (λ event', Event.id event' = Event.id Sample.standup →
                              event' = Sample.standup) p.2)
    Cadence.polls.
Proof.
  unfold Cadence.polls. apply Forall_fmap, Forall_forall. intros i _. simpl.
  apply Forall_cons. split; [intros H; discriminate H|].
  apply Forall_cons. split; [intros _; reflexivity|]. apply Forall_nil_2.
Defined.

Lemma started_caught_once_witness :
  Event.start Sample.standup = StartDateTime "2024-03-01T10:15:00+05:30"
  ∧ local_start (lib := Ref.lib) "2024-03-01T10:15:00+05:30" = Some Sample.at_10_15
  ∧ fired ∅ "e1" k_started = false
  ∧ Forall (λ p : Z * list Event.t, Sample.standup ∈ p.2) Cadence.around_start
  ∧ checks_return (lib := Ref.lib) Cadence.around_start ∅
  ∧ gaps_at_most (timedelta_minutes 5) Cadence.around_start.*1
  ∧ sent_count "e1" k_started (run_polls (lib := Ref.lib) Cadence.around_start ∅).2
    = 1%nat.
Proof.
  assert (H1 : Event.start Sample.standup = StartDateTime "2024-03-01T10:15:00+05:30")
    by reflexivity.
  assert (H2 : local_start (lib := Ref.lib) "2024-03-01T10:15:00+05:30"
               = Some Sample.at_10_15) by (vm_compute; reflexivity).
  assert (H3 : fired ∅ "e1" k_started = false) by reflexivity.
  assert (H4 : Forall (λ p : Z * list Event.t, Sample.standup ∈ p.2)
                 Cadence.around_start).
  { unfold Cadence.around_start. apply Forall_fmap, Forall_forall. intros i _.
    simpl. apply list_elem_of_further, list_elem_of_here. }
  assert (H5 : checks_return (lib := Ref.lib) Cadence.around_start ∅)
    by (vm_compute; repeat split).
  assert (H6 : gaps_at_most (timedelta_minutes 5) Cadence.around_start.*1)
    by (vm_compute; repeat split; discriminate).
  assert (H7 : head Cadence.around_start.*1 = Some (Sample.at_10_15 - 30000000))
    by (vm_compute; reflexivity).
  assert (H8 : last Cadence.around_start.*1
               = Some (Sample.at_10_15 - 30000000 + 2 * Sample.minute))
    by (vm_compute; reflexivity).
  split_and!; [exact H1|exact H2|exact H3|exact H4|exact H5|exact H6|].
  apply (started_caught_once (lib := Ref.lib) Sample.standup _ _ Cadence.around_start
           ∅ _ _ H1 H2 H3 H4 H5 H6 H7 H8).
  - vm_compute. reflexivity.
  - vm_compute. discriminate.
Defined.

Lemma missed_window_never_made_up_witness :
  Event.start Sample.standup = StartDateTime "2024-03-01T10:15:00+05:30"
  ∧ local_start (lib := Ref.lib) "2024-03-01T10:15:00+05:30" = Some Sample.at_10_15
  ∧ ("e1", k_threshold 5)
    ∉ notifications
        (run_polls (lib := Ref.lib)
           [(Sample.at_10_15 - 7 * Sample.minute, [Sample.standup]);
            (Sample.at_10_15 - 4 * Sample.minute, [Sample.standup]);
            (Sample.at_10_15 - 3 * Sample.minute, [Sample.standup])] ∅).2.
Proof.
  assert (H1 : Event.start Sample.standup = StartDateTime "2024-03-01T10:15:00+05:30")
    by reflexivity.
  assert (H2 : local_start (lib := Ref.lib) "2024-03-01T10:15:00+05:30"
               = Some Sample.at_10_15) by (vm_compute; reflexivity).
  split_and!; [exact H1|exact H2|].
  refine (proj1 (missed_window_never_made_up (lib := Ref.lib) Sample.standup _ _
                   _ ∅ H1 H2 _) 5 _).
  - repeat constructor; reflexivity.
  - repeat constructor; cbn [fst]; vm_compute; intros [Ha Hb];
      first [by apply Ha | discriminate Hb].
Defined.

Lemma reminders_come_in_order_witness :
  Event.start Sample.standup = StartDateTime "2024-03-01T10:15:00+05:30"
  ∧ local_start (lib := Ref.lib) "2024-03-01T10:15:00+05:30" = Some Sample.at_10_15
  ∧ StronglySorted Z.le Cadence.polls.*1
  ∧ StronglySorted (λ k k', (milestone_rank k < milestone_rank k')%nat)
      (keys_notified "e1" (run_polls (lib := Ref.lib) Cadence.polls ∅).2).
Proof.
  assert (H1 : Event.start Sample.standup = StartDateTime "2024-03-01T10:15:00+05:30")
    by reflexivity.
  assert (H2 : local_start (lib := Ref.lib) "2024-03-01T10:15:00+05:30"
               = Some Sample.at_10_15) by (vm_compute; reflexivity).
  assert (H3 : StronglySorted Z.le Cadence.polls.*1)
    by (vm_compute; repeat constructor; discriminate).
  split_and!; [exact H1|exact H2|exact H3|].
  exact (proj1 (reminders_come_in_order (lib := Ref.lib) Sample.standup _ _
                  Cadence.polls ∅ H1 H2 cadence_carries H3)).
Defined.

Lemma fetch_failure_is_silent_witness :
  RefFetch.unreachable (job_request (flib := RefFetch.flib) Sample.at_10_00)
  = ListHttpError "503"
  ∧ state_of (check_and_remind_service (lib := Ref.lib) (flib := RefFetch.flib)
                RefFetch.unreachable Sample.at_10_00 ∅) = ∅
  ∧ notifications
      (trace_of (check_and_remind_service (lib := Ref.lib) (flib := RefFetch.flib)
                   RefFetch.unreachable Sample.at_10_00 ∅)) = [].
Proof.
  assert (H : RefFetch.unreachable (job_request (flib := RefFetch.flib) Sample.at_10_00)
              = ListHttpError "503") by reflexivity.
  split; [exact H|].
  pose proof (fetch_failure_is_silent (lib := Ref.lib) (flib := RefFetch.flib)
                RefFetch.unreachable Sample.at_10_00 ∅ "503" H)
    as (_ & _ & Hst & Hn & _).
  split; [exact Hst|exact Hn].
Defined.

Lemma notified_start_within_fetch_window_witness :
  ("e1", k_started)
    ∈ notifications (trace_of (check_and_remind (lib := Ref.lib) Sample.at_10_15
                                 [Sample.holiday; Sample.standup] ∅))
  ∧ k_started ≠ k_all_day_today
  ∧ ∃ event dateTime t,
      event ∈ [Sample.holiday; Sample.standup] ∧ Event.id event = "e1"
      ∧ Event.start event = StartDateTime dateTime
      ∧ local_start (lib := Ref.lib) dateTime = Some t
      ∧ fetch_start_time Sample.at_10_15 < t < fetch_end_time Sample.at_10_15
      ∧ t - Sample.at_10_15 < timedelta_minutes 16.
Proof.
  assert (H1 : ("e1", k_started)
               ∈ notifications (trace_of (check_and_remind (lib := Ref.lib)
                                            Sample.at_10_15
                                            [Sample.holiday; Sample.standup] ∅)))
    by (vm_compute; apply list_elem_of_further, list_elem_of_here).
  assert (H2 : k_started ≠ k_all_day_today) by discriminate.
  split; [exact H1|]. split; [exact H2|].
  exact (notified_start_within_fetch_window (lib := Ref.lib) Sample.at_10_15
           _ ∅ _ _ H1 H2).
Defined.

Lemma batch_order_is_irrelevant_witness :
  [Sample.holiday; Sample.standup] ≡ₚ [Sample.standup; Sample.holiday]
  ∧ NoDup (Event.id <$> [Sample.holiday; Sample.standup])
  ∧ outcome_of (check_and_remind (lib := Ref.lib) Sample.at_10_15
                  [Sample.holiday; Sample.standup] ∅) = Returned tt
  ∧ state_of (check_and_remind (lib := Ref.lib) Sample.at_10_15
                [Sample.holiday; Sample.standup] ∅)
    = state_of (check_and_remind (lib := Ref.lib) Sample.at_10_15
                  [Sample.standup; Sample.holiday] ∅).
Proof.
  assert (H1 : [Sample.holiday; Sample.standup] ≡ₚ [Sample.standup; Sample.holiday])
    by apply perm_swap.
  assert (H2 : NoDup (Event.id <$> [Sample.holiday; Sample.standup])).
  { simpl. apply NoDup_cons. split.
    - intros [H|H]%elem_of_cons; [discriminate H|by apply elem_of_nil in H].
    - apply NoDup_cons. split; [apply not_elem_of_nil|apply NoDup_nil_2]. }
  assert (H3 : outcome_of (check_and_remind (lib := Ref.lib) Sample.at_10_15
                             [Sample.holiday; Sample.standup] ∅) = Returned tt)
    by (vm_compute; reflexivity).
  split_and!; [exact H1|exact H2|exact H3|].
  exact (proj1 (proj2 (batch_order_is_irrelevant (lib := Ref.lib) Sample.at_10_15
                         _ _ ∅ H1 H2 H3))).
Defined.
